(** * FEA cable tutorial (FEA/FEA_cable_collide_1.py): a shallow embedding

    The script builds a cable of ANCF beam elements with the PyChrono API and
    steps it in an Irrlicht render loop.  Everything the script itself does is
    embedded here: the Python values it computes (integers, binary64 floats,
    lists with Python indexing), the objects it creates through the API (kept
    in a store, addressed by handles, so that sharing is visible), and the
    order of its API calls (kept in a trace).  The numerical engine behind
    [DoStep] is not part of the script; it is a parameter of the render loop. *)

From Stdlib Require Import ZArith Floats Strings.String.
From stdpp Require Import base list.

#[local] Set Warnings "-inexact-float".
Local Open Scope Z_scope.

(** ** Python values *)

(** The exceptions the interpreter can raise in this script, plus one for an
    exception coming out of an engine call. *)
Inductive PyError : Type :=
| ZeroDivisionError
| OverflowError
| IndexError
| NameError
| EngineError.

Inductive result (A : Type) : Type :=
| Ok (a : A)
| Raise (e : PyError).
Arguments Ok {A} a.
Arguments Raise {A} e.

Definition is_ok {A} (r : result A) : bool :=
  match r with Ok _ => true | Raise _ => false end.

(** [range(n)] *)
Definition py_range (n : Z) : list Z := seqZ 0 n.

(** [l[i]]: a negative index counts from the end; anything else out of range
    raises IndexError. *)
Definition py_getitem {A} (l : list A) (i : Z) : result A :=
  let n := Z.of_nat (length l) in
  let j := if i <? 0 then i + n else i in
  if (0 <=? j) && (j <? n)
  then match l !! Z.to_nat j with
       | Some x => Ok x
       | None => Raise IndexError
       end
  else Raise IndexError.

(** *** binary64 *)

(** An integer handed to a C++ [double] parameter (as in [ChVectorD(x, 0.5, 0)]);
    exact for the small literals of the script. *)
Definition float_of_Z (z : Z) : float :=
  SF2Prim (binary_normalize prec emax z 0 false).

(** The correctly rounded quotient of two integers, divisor not zero: the
    quotient is taken with at least 56 significant bits, a sticky bit records a
    non-zero remainder, and the whole is rounded to nearest even. *)
Definition rounded_quotient (a b : Z) : float :=
  let neg := xorb (a <? 0) (b <? 0) in
  let A := Z.abs a in
  let B := Z.abs b in
  if A =? 0 then (if neg then (-0)%float else 0%float)
  else
    let k := Z.max 0 (Z.log2 B + 56 - Z.log2 A) in
    let q := (A * 2 ^ k) / B in
    let sticky := if (A * 2 ^ k) mod B =? 0 then 0 else 1 in
    let m := 2 * q + sticky in
    SF2Prim (binary_normalize prec emax (if neg then - m else m) (- k - 1) false).

(** The least magnitude that rounds to infinity: [2^1024 - 2^970]. *)
Definition overflow_threshold : Z := 2 ^ 1024 - 2 ^ 970.

(** [a / b] on Python integers (true division): ZeroDivisionError on a zero
    divisor, OverflowError when the quotient is too large for a float,
    otherwise the correctly rounded quotient. *)
Definition int_true_divide (a b : Z) : result float :=
  if b =? 0 then Raise ZeroDivisionError
  else if overflow_threshold * Z.abs b <=? Z.abs a then Raise OverflowError
  else Ok (rounded_quotient a b).

(** Decimal literals of the script, each the double nearest to the decimal. *)
Definition lit_1_2 : float := 1.2%float.
Definition lit_0_5 : float := 0.5%float.
Definition lit_0_01 : float := 0.01%float.
Definition lit_9_81 : float := 9.81%float.
Definition lit_0_01e9 : float := 0.01e9%float.
Definition lit_1em10 : float := 1e-10%float.

(** ** Engine objects

    Every object the script creates lives in a store, one list per class; a
    handle is the position in that list.  A field the script has not set is
    [None] (the engine's default, which the script does not show). *)

Definition handle : Type := nat.

Record ChVectorD : Type := mkVector { vx : float; vy : float; vz : float }.

Inductive Item : Type :=
| ItemMesh (h : handle)
| ItemBody (h : handle)
| ItemLink (h : handle).

Inductive TimestepperType : Type :=
| Type_EULER_IMPLICIT_LINEARIZED
| Type_HHT.

Record ChSystem : Type := mkSystem {
  G_acc : option ChVectorD;
  sys_items : list Item;
  sys_solver : option handle;
  sys_timestepper : option TimestepperType }.

Record ChMesh : Type := mkMesh {
  mesh_nodes : list handle;
  mesh_elements : list handle }.

Record ChBeamSectionCable : Type := mkSection {
  diameter : option float;
  young_modulus : option float;
  rayleigh_damping : option float }.

Record ChNodeFEAxyzD : Type := mkNode {
  node_pos : ChVectorD;
  node_dir : ChVectorD }.

Record ChElementCableANCF : Type := mkElement {
  el_nodes : option (handle * handle);
  el_section : option handle }.

Record ChBody : Type := mkBody { body_fixed : option bool }.

Record ChLinkPointFrame : Type := mkLink {
  link_node : option handle;
  link_body : option handle }.

Record ChSolverMINRES : Type := mkSolver {
  max_iterations : option Z;
  tolerance : option float;
  warm_start : option bool }.

Record ChIrrApp : Type := mkApp {
  app_system : handle;
  app_timestep : option float;
  app_try_realtime : option bool }.

(** ** The trace of API calls *)

Inductive Arg : Type :=
| ARef (h : handle)
| AFloat (f : float)
| AInt (z : Z)
| ABool (b : bool)
| AVec (v : ChVectorD)
| AStr (s : string)
| ATimestepper (t : TimestepperType).

Inductive Event : Type :=
| Called (callee : string) (args : list Arg)
    (* a call the script makes *)
| Assigned (var : string)
    (* an assignment to one of the script's variables *)
| EngineStep (dt : option float).
    (* the engine is asked to advance, with the application's step size *)

(** ** The state of a run *)

Record State : Type := mkState {
  systems : list ChSystem;
  meshes : list ChMesh;
  sections : list ChBeamSectionCable;
  nodes : list ChNodeFEAxyzD;
  elements : list ChElementCableANCF;
  bodies : list ChBody;
  links : list ChLinkPointFrame;
  solvers : list ChSolverMINRES;
  apps : list ChIrrApp;
  (* the script's variables [length], [N_nodes] and [beam_nodes] *)
  py_length : option float;
  py_N_nodes : option Z;
  py_beam_nodes : option (list handle);
  trace : list Event }.

Definition initial_state : State :=
  mkState [] [] [] [] [] [] [] [] [] None None None [].

Definition upd_systems (f : list ChSystem -> list ChSystem) (st : State) : State :=
  mkState (f (systems st)) (meshes st) (sections st) (nodes st) (elements st)
    (bodies st) (links st) (solvers st) (apps st) (py_length st)
    (py_N_nodes st) (py_beam_nodes st) (trace st).
Definition upd_meshes (f : list ChMesh -> list ChMesh) (st : State) : State :=
  mkState (systems st) (f (meshes st)) (sections st) (nodes st) (elements st)
    (bodies st) (links st) (solvers st) (apps st) (py_length st)
    (py_N_nodes st) (py_beam_nodes st) (trace st).
Definition upd_sections (f : list ChBeamSectionCable -> list ChBeamSectionCable) (st : State) : State :=
  mkState (systems st) (meshes st) (f (sections st)) (nodes st) (elements st)
    (bodies st) (links st) (solvers st) (apps st) (py_length st)
    (py_N_nodes st) (py_beam_nodes st) (trace st).
Definition upd_nodes (f : list ChNodeFEAxyzD -> list ChNodeFEAxyzD) (st : State) : State :=
  mkState (systems st) (meshes st) (sections st) (f (nodes st)) (elements st)
    (bodies st) (links st) (solvers st) (apps st) (py_length st)
    (py_N_nodes st) (py_beam_nodes st) (trace st).
Definition upd_elements (f : list ChElementCableANCF -> list ChElementCableANCF) (st : State) : State :=
  mkState (systems st) (meshes st) (sections st) (nodes st) (f (elements st))
    (bodies st) (links st) (solvers st) (apps st) (py_length st)
    (py_N_nodes st) (py_beam_nodes st) (trace st).
Definition upd_bodies (f : list ChBody -> list ChBody) (st : State) : State :=
  mkState (systems st) (meshes st) (sections st) (nodes st) (elements st)
    (f (bodies st)) (links st) (solvers st) (apps st) (py_length st)
    (py_N_nodes st) (py_beam_nodes st) (trace st).
Definition upd_links (f : list ChLinkPointFrame -> list ChLinkPointFrame) (st : State) : State :=
  mkState (systems st) (meshes st) (sections st) (nodes st) (elements st)
    (bodies st) (f (links st)) (solvers st) (apps st) (py_length st)
    (py_N_nodes st) (py_beam_nodes st) (trace st).
Definition upd_solvers (f : list ChSolverMINRES -> list ChSolverMINRES) (st : State) : State :=
  mkState (systems st) (meshes st) (sections st) (nodes st) (elements st)
    (bodies st) (links st) (f (solvers st)) (apps st) (py_length st)
    (py_N_nodes st) (py_beam_nodes st) (trace st).
Definition upd_apps (f : list ChIrrApp -> list ChIrrApp) (st : State) : State :=
  mkState (systems st) (meshes st) (sections st) (nodes st) (elements st)
    (bodies st) (links st) (solvers st) (f (apps st)) (py_length st)
    (py_N_nodes st) (py_beam_nodes st) (trace st).
Definition set_py_length (v : float) (st : State) : State :=
  mkState (systems st) (meshes st) (sections st) (nodes st) (elements st)
    (bodies st) (links st) (solvers st) (apps st) (Some v) (py_N_nodes st)
    (py_beam_nodes st) (trace st).
Definition set_py_N_nodes (v : Z) (st : State) : State :=
  mkState (systems st) (meshes st) (sections st) (nodes st) (elements st)
    (bodies st) (links st) (solvers st) (apps st) (py_length st) (Some v)
    (py_beam_nodes st) (trace st).
Definition set_py_beam_nodes (v : list handle) (st : State) : State :=
  mkState (systems st) (meshes st) (sections st) (nodes st) (elements st)
    (bodies st) (links st) (solvers st) (apps st) (py_length st)
    (py_N_nodes st) (Some v) (trace st).
Definition add_event (ev : Event) (st : State) : State :=
  mkState (systems st) (meshes st) (sections st) (nodes st) (elements st)
    (bodies st) (links st) (solvers st) (apps st) (py_length st)
    (py_N_nodes st) (py_beam_nodes st) (trace st ++ [ev]).

(** ** Statements: state and exceptions *)

Definition M (A : Type) : Type := State -> result A * State.

Definition ret {A} (a : A) : M A := fun st => (Ok a, st).

(** Sequencing: an exception ends the run, in the state reached so far. *)
Definition bind {A B} (m : M A) (k : A -> M B) : M B := fun st =>
  match m st with
  | (Ok a, st') => k a st'
  | (Raise e, st') => (Raise e, st')
  end.

Definition lift {A} (r : result A) : M A := fun st => (r, st).

Definition modify (f : State -> State) : M unit := fun st => (Ok tt, f st).

Declare Scope py_scope.
Delimit Scope py_scope with py.
Notation "x <- c1 ;; c2" := (bind c1 (fun x => c2))
  (at level 100, c1 at next level, right associativity) : py_scope.
Notation "c1 ;; c2" := (bind c1 (fun _ => c2))
  (at level 100, right associativity) : py_scope.
Local Open Scope py_scope.

(** [for x in l: body] *)
Fixpoint for_each {A} (l : list A) (body : A -> M unit) : M unit :=
  match l with
  | [] => ret tt
  | x :: rest => body x ;; for_each rest body
  end.

Definition called (callee : string) (args : list Arg) : M unit :=
  modify (add_event (Called callee args)).

(** ** The API calls the script makes

    A constructor appends a fresh object to its store and returns its handle; a
    setter rewrites one field of the object behind the handle; every call is
    recorded in the trace. *)

Local Open Scope string_scope.
Local Open Scope list_scope.
Local Open Scope py_scope.

Definition new_ChSystemNSC : M handle := fun st =>
  (Ok (length (systems st)),
   add_event (Called "ChSystemNSC" [])
     (upd_systems (fun l => l ++ [mkSystem None [] None None]) st)).

Definition Set_G_acc (sys : handle) (g : ChVectorD) : M unit :=
  modify (upd_systems (alter (fun s =>
    mkSystem (Some g) (sys_items s) (sys_solver s) (sys_timestepper s)) sys)) ;;
  called "Set_G_acc" [ARef sys; AVec g].

Definition system_Add (sys : handle) (it : Item) : M unit :=
  modify (upd_systems (alter (fun s =>
    mkSystem (G_acc s) (sys_items s ++ [it]) (sys_solver s) (sys_timestepper s)) sys)) ;;
  called "Add" [ARef sys;
                ARef (match it with ItemMesh h | ItemBody h | ItemLink h => h end)].

Definition SetSolver (sys solver : handle) : M unit :=
  modify (upd_systems (alter (fun s =>
    mkSystem (G_acc s) (sys_items s) (Some solver) (sys_timestepper s)) sys)) ;;
  called "SetSolver" [ARef sys; ARef solver].

Definition SetTimestepperType (sys : handle) (t : TimestepperType) : M unit :=
  modify (upd_systems (alter (fun s =>
    mkSystem (G_acc s) (sys_items s) (sys_solver s) (Some t)) sys)) ;;
  called "SetTimestepperType" [ARef sys; ATimestepper t].

Definition new_ChMesh : M handle := fun st =>
  (Ok (length (meshes st)),
   add_event (Called "ChMesh" [])
     (upd_meshes (fun l => l ++ [mkMesh [] []]) st)).

Definition AddNode (mesh node : handle) : M unit :=
  modify (upd_meshes (alter (fun m =>
    mkMesh (mesh_nodes m ++ [node]) (mesh_elements m)) mesh)) ;;
  called "AddNode" [ARef mesh; ARef node].

Definition AddElement (mesh element : handle) : M unit :=
  modify (upd_meshes (alter (fun m =>
    mkMesh (mesh_nodes m) (mesh_elements m ++ [element])) mesh)) ;;
  called "AddElement" [ARef mesh; ARef element].

Definition new_ChBeamSectionCable : M handle := fun st =>
  (Ok (length (sections st)),
   add_event (Called "ChBeamSectionCable" [])
     (upd_sections (fun l => l ++ [mkSection None None None]) st)).

Definition SetDiameter (sec : handle) (d : float) : M unit :=
  modify (upd_sections (alter (fun s =>
    mkSection (Some d) (young_modulus s) (rayleigh_damping s)) sec)) ;;
  called "SetDiameter" [ARef sec; AFloat d].

Definition SetYoungModulus (sec : handle) (E : float) : M unit :=
  modify (upd_sections (alter (fun s =>
    mkSection (diameter s) (Some E) (rayleigh_damping s)) sec)) ;;
  called "SetYoungModulus" [ARef sec; AFloat E].

Definition SetBeamRaleyghDamping (sec : handle) (r : float) : M unit :=
  modify (upd_sections (alter (fun s =>
    mkSection (diameter s) (young_modulus s) (Some r)) sec)) ;;
  called "SetBeamRaleyghDamping" [ARef sec; AFloat r].

Definition new_ChNodeFEAxyzD (position direction : ChVectorD) : M handle := fun st =>
  (Ok (length (nodes st)),
   add_event (Called "ChNodeFEAxyzD" [AVec position; AVec direction])
     (upd_nodes (fun l => l ++ [mkNode position direction]) st)).

Definition new_ChElementCableANCF : M handle := fun st =>
  (Ok (length (elements st)),
   add_event (Called "ChElementCableANCF" [])
     (upd_elements (fun l => l ++ [mkElement None None]) st)).

Definition SetNodes (element nodeA nodeB : handle) : M unit :=
  modify (upd_elements (alter (fun e =>
    mkElement (Some (nodeA, nodeB)) (el_section e)) element)) ;;
  called "SetNodes" [ARef element; ARef nodeA; ARef nodeB].

(** The element keeps the handle of the section, not a copy of its fields. *)
Definition SetSection (element sec : handle) : M unit :=
  modify (upd_elements (alter (fun e =>
    mkElement (el_nodes e) (Some sec)) element)) ;;
  called "SetSection" [ARef element; ARef sec].

Definition new_ChBody : M handle := fun st =>
  (Ok (length (bodies st)),
   add_event (Called "ChBody" [])
     (upd_bodies (fun l => l ++ [mkBody None]) st)).

Definition SetBodyFixed (body : handle) (b : bool) : M unit :=
  modify (upd_bodies (alter (fun _ => mkBody (Some b)) body)) ;;
  called "SetBodyFixed" [ARef body; ABool b].

Definition new_ChLinkPointFrame : M handle := fun st =>
  (Ok (length (links st)),
   add_event (Called "ChLinkPointFrame" [])
     (upd_links (fun l => l ++ [mkLink None None]) st)).

Definition Initialize (link node body : handle) : M unit :=
  modify (upd_links (alter (fun _ => mkLink (Some node) (Some body)) link)) ;;
  called "Initialize" [ARef link; ARef node; ARef body].

Definition new_ChSolverMINRES : M handle := fun st =>
  (Ok (length (solvers st)),
   add_event (Called "ChSolverMINRES" [])
     (upd_solvers (fun l => l ++ [mkSolver None None None]) st)).

Definition SetMaxIterations (solver : handle) (n : Z) : M unit :=
  modify (upd_solvers (alter (fun s =>
    mkSolver (Some n) (tolerance s) (warm_start s)) solver)) ;;
  called "SetMaxIterations" [ARef solver; AInt n].

Definition SetTolerance (solver : handle) (t : float) : M unit :=
  modify (upd_solvers (alter (fun s =>
    mkSolver (max_iterations s) (Some t) (warm_start s)) solver)) ;;
  called "SetTolerance" [ARef solver; AFloat t].

Definition EnableWarmStart (solver : handle) (b : bool) : M unit :=
  modify (upd_solvers (alter (fun s =>
    mkSolver (max_iterations s) (tolerance s) (Some b)) solver)) ;;
  called "EnableWarmStart" [ARef solver; ABool b].

Definition new_ChIrrApp (sys : handle) : M handle := fun st =>
  (Ok (length (apps st)),
   add_event (Called "ChIrrApp" [ARef sys; AStr "FEA cable collide demo"])
     (upd_apps (fun l => l ++ [mkApp sys None None]) st)).

Definition SetTimestep (app : handle) (dt : float) : M unit :=
  modify (upd_apps (alter (fun a =>
    mkApp (app_system a) (Some dt) (app_try_realtime a)) app)) ;;
  called "SetTimestep" [ARef app; AFloat dt].

Definition SetTryRealtime (app : handle) (b : bool) : M unit :=
  modify (upd_apps (alter (fun a =>
    mkApp (app_system a) (app_timestep a) (Some b)) app)) ;;
  called "SetTryRealtime" [ARef app; ABool b].

(** A call that only concerns the display (assets, camera, scene): it is
    recorded, and touches none of the objects above. *)
Definition render_call (callee : string) : M unit := called callee [].

(** The script's variables. *)
Definition assign_length (v : float) : M unit :=
  modify (set_py_length v) ;; modify (add_event (Assigned "length")).
Definition assign_N_nodes (v : Z) : M unit :=
  modify (set_py_N_nodes v) ;; modify (add_event (Assigned "N_nodes")).
Definition assign_beam_nodes (v : list handle) : M unit :=
  modify (set_py_beam_nodes v) ;; modify (add_event (Assigned "beam_nodes")).

Definition read_var {A} (get : State -> option A) : M A := fun st =>
  match get st with
  | Some v => (Ok v, st)
  | None => (Raise NameError, st)
  end.

(** [beam_nodes.append(node)] *)
Definition beam_nodes_append (node : handle) : M unit :=
  l <- read_var py_beam_nodes ;;
  modify (set_py_beam_nodes (l ++ [node])) ;;
  called "append" [ARef node].

(** ** The script

    [setup_with len N] is the script up to the render loop, with the two
    literals of [length = 1.2] and [N_nodes = 16] taken as parameters; [setup]
    is the script as written. *)

Definition CHRONO_DATA_DIR : string := "C:/codes/Chrono/Chrono_Source/data/".

Definition float_zero : float := float_of_Z 0.

(** Body of [for i_ni in range(N_nodes)]. *)
Definition node_body (mesh : handle) (i_ni : Z) : M unit :=
  len <- read_var py_length ;;
  n <- read_var py_N_nodes ;;
  q <- lift (int_true_divide i_ni (n - 1)) ;;
  let position := mkVector (len * q)%float lit_0_5 float_zero in
  let direction := mkVector 1%float float_zero float_zero in
  node <- new_ChNodeFEAxyzD position direction ;;
  AddNode mesh node ;;
  beam_nodes_append node.

(** Body of [for ie in range(N_nodes - 1)]. *)
Definition element_body (mesh beam_material : handle) (ie : Z) : M unit :=
  element <- new_ChElementCableANCF ;;
  l <- read_var py_beam_nodes ;;
  nodeA <- lift (py_getitem l ie) ;;
  l' <- read_var py_beam_nodes ;;
  nodeB <- lift (py_getitem l' (ie + 1)) ;;
  SetNodes element nodeA nodeB ;;
  SetSection element beam_material ;;
  AddElement mesh element.

Definition node_loop (mesh : handle) : M unit :=
  n <- read_var py_N_nodes ;;
  for_each (py_range n) (node_body mesh).

Definition element_loop (mesh beam_material : handle) : M unit :=
  n <- read_var py_N_nodes ;;
  for_each (py_range (n - 1)) (element_body mesh beam_material).

(** 7. The two visualisation assets. *)
Definition visualization : M unit :=
  render_call "ChVisualizationFEAmesh" ;;
  render_call "SetFEMdataType" ;;
  render_call "SetColorscaleMinMax" ;;
  render_call "SetSmoothFaces" ;;
  render_call "SetWireframe" ;;
  render_call "AddAsset" ;;
  render_call "ChVisualizationFEAmesh" ;;
  render_call "SetFEMglyphType" ;;
  render_call "SetFEMdataType" ;;
  render_call "SetSymbolsThickness" ;;
  render_call "SetSymbolsScale" ;;
  render_call "SetZbufferHide" ;;
  render_call "AddAsset".

(** The scene of section 9, once the application is created. *)
Definition scene_setup : M unit :=
  render_call "AddLogo" ;;
  render_call "AddSkyBox" ;;
  render_call "AddTypicalLights" ;;
  render_call "AddCamera" ;;
  render_call "AssetBindAll" ;;
  render_call "AssetUpdateAll".

(** 1. The system and its gravity. *)
Definition create_system : M handle :=
  system <- new_ChSystemNSC ;;
  Set_G_acc system (mkVector float_zero (- lit_9_81)%float float_zero) ;;
  ret system.

(** 2. The mesh, added to the system. *)
Definition create_mesh (system : handle) : M handle :=
  mesh <- new_ChMesh ;;
  system_Add system (ItemMesh mesh) ;;
  ret mesh.

(** 3. The material of the beam elements. *)
Definition create_material : M handle :=
  beam_material <- new_ChBeamSectionCable ;;
  SetDiameter beam_material lit_0_01 ;;
  SetYoungModulus beam_material lit_0_01e9 ;;
  SetBeamRaleyghDamping beam_material lit_0_01 ;;
  ret beam_material.

(** 4. The nodes. *)
Definition create_nodes (mesh : handle) (len : float) (N : Z) : M unit :=
  assign_beam_nodes [] ;;
  assign_length len ;;
  assign_N_nodes N ;;
  node_loop mesh.

(** 5. The elements. *)
Definition create_elements (mesh beam_material : handle) : M unit :=
  element_loop mesh beam_material.

(** 6. The fixed truss and the constraint that locks node 0 to it. *)
Definition add_constraints (system : handle) : M unit :=
  truss <- new_ChBody ;;
  SetBodyFixed truss true ;;
  system_Add system (ItemBody truss) ;;
  constraint_pos <- new_ChLinkPointFrame ;;
  l <- read_var py_beam_nodes ;;
  node0 <- lift (py_getitem l 0) ;;
  Initialize constraint_pos node0 truss ;;
  system_Add system (ItemLink constraint_pos).

(** 8. The solver and the timestepper. *)
Definition configure_solver (system : handle) : M unit :=
  solver <- new_ChSolverMINRES ;;
  SetMaxIterations solver 200 ;;
  SetTolerance solver lit_1em10 ;;
  EnableWarmStart solver true ;;
  SetSolver system solver ;;
  SetTimestepperType system Type_EULER_IMPLICIT_LINEARIZED.

(** 9. and 10. The application, its scene and its step size. *)
Definition prepare_application (system : handle) : M handle :=
  application <- new_ChIrrApp system ;;
  scene_setup ;;
  SetTimestep application lit_0_01 ;;
  SetTryRealtime application true ;;
  ret application.

Definition setup_with (len : float) (N : Z) : M handle :=
  called "SetChronoDataPath" [AStr CHRONO_DATA_DIR] ;;
  system <- create_system ;;
  mesh <- create_mesh system ;;
  beam_material <- create_material ;;
  create_nodes mesh len N ;;
  create_elements mesh beam_material ;;
  add_constraints system ;;
  visualization ;;
  configure_solver system ;;
  prepare_application system.

Definition setup : M handle := setup_with lit_1_2 16.

(** ** The render loop

    The engine is not in the script.  [DoStepDynamics dt st] stands for what
    the engine does when the application asks it to advance by its step size:
    it may raise, or give every node its new position and direction.  The
    device says for how many frames the window stays open. *)

Section RenderLoop.

Variable DoStepDynamics :
  option float -> State -> result (nat -> ChNodeFEAxyzD).

(** [application.DoStep()]: the step size is the one stored in the
    application; the script passes no argument. *)
Definition DoStep (app : handle) : M unit := fun st =>
  let dt := apps st !! app ≫= app_timestep in
  let st1 := add_event (EngineStep dt)
               (add_event (Called "DoStep" [ARef app]) st) in
  match DoStepDynamics dt st1 with
  | Raise e => (Raise e, st1)
  | Ok new_node => (Ok tt, upd_nodes (imap (fun i _ => new_node i)) st1)
  end.

(** One pass through the body of [while application.GetDevice().run()]. *)
Definition frame (app : handle) : M unit :=
  render_call "BeginScene" ;;
  render_call "DrawAll" ;;
  render_call "drawGrid" ;;
  DoStep app ;;
  render_call "EndScene".

(** The loop, for a device that stays alive for [frames] passes. *)
Fixpoint render_loop (frames : nat) (app : handle) : M unit :=
  match frames with
  | O => render_call "run"
  | S k => render_call "run" ;; frame app ;; render_loop k app
  end.

Definition script_with (len : float) (N : Z) (frames : nat) : M unit :=
  application <- setup_with len N ;;
  render_loop frames application.

Definition script (frames : nat) : M unit := script_with lit_1_2 16 frames.

End RenderLoop.

(** ** Reading a trace *)

Definition is_call (name : string) (ev : Event) : bool :=
  match ev with
  | Called callee _ => String.eqb callee name
  | _ => false
  end.

Definition is_assignment (var : string) (ev : Event) : bool :=
  match ev with
  | Assigned v => String.eqb v var
  | _ => false
  end.

Fixpoint count_events (p : Event -> bool) (t : list Event) : nat :=
  match t with
  | [] => O
  | ev :: rest => (if p ev then 1 else 0) + count_events p rest
  end.

(** How often the script called [name]. *)
Definition calls_of (name : string) (t : list Event) : nat :=
  count_events (is_call name) t.

(** How often the script assigned to [var]. *)
Definition assignments_of (var : string) (t : list Event) : nat :=
  count_events (is_assignment var) t.

(** The step sizes the engine was asked to advance by, in order. *)
Fixpoint step_sizes (t : list Event) : list (option float) :=
  match t with
  | [] => []
  | EngineStep dt :: rest => dt :: step_sizes rest
  | _ :: rest => step_sizes rest
  end.

(** ** The engine steps requested by the render loop *)

(** The events of one complete frame, and of a frame whose step raised. *)
Definition frame_events (app : handle) (dt : option float) : list Event :=
  [Called "run" []; Called "BeginScene" []; Called "DrawAll" [];
   Called "drawGrid" []; Called "DoStep" [ARef app]; EngineStep dt;
   Called "EndScene" []].

Definition failed_frame_events (app : handle) (dt : option float) : list Event :=
  [Called "run" []; Called "BeginScene" []; Called "DrawAll" [];
   Called "drawGrid" []; Called "DoStep" [ARef app]; EngineStep dt].

(** What the render loop leaves alone: every object but the node states, and
    the script's variables. *)
Record frozen (st st' : State) : Prop := mkFrozen {
  frozen_systems : systems st' = systems st;
  frozen_meshes : meshes st' = meshes st;
  frozen_sections : sections st' = sections st;
  frozen_elements : elements st' = elements st;
  frozen_bodies : bodies st' = bodies st;
  frozen_links : links st' = links st;
  frozen_solvers : solvers st' = solvers st;
  frozen_apps : apps st' = apps st;
  frozen_length : py_length st' = py_length st;
  frozen_N_nodes : py_N_nodes st' = py_N_nodes st;
  frozen_beam_nodes : py_beam_nodes st' = py_beam_nodes st;
  frozen_node_count : length (nodes st') = length (nodes st) }.

(** The state in which the engine is called during a frame begun in [st]. *)
Definition at_step (app : handle) (st : State) : State :=
  add_event (EngineStep (apps st !! app ≫= app_timestep))
    (add_event (Called "DoStep" [ARef app])
       (add_event (Called "drawGrid" [])
          (add_event (Called "DrawAll" [])
             (add_event (Called "BeginScene" []) st)))).

(** The state the script reaches before its render loop. *)
Definition after_setup : State := Eval vm_compute in snd (setup initial_state).

(** ** Notions the properties below are stated with *)

Local Open Scope Z_scope.

(** [x * 2^k] as an integer, for a finite double [x] for which it is one. *)
Definition exact_scaled (k : Z) (x : float) : option Z :=
  match Prim2SF x with
  | S754_zero _ => Some 0
  | S754_finite s m e =>
      if 0 <=? e + k
      then Some ((if s then -1 else 1) * Z.pos m * 2 ^ (e + k))
      else None
  | _ => None
  end.

(** [x] is within [2^-52] of the real number [1.2 * i / 15 = 2 * i / 25]. *)
Definition close_to_uniform (i : Z) (x : float) : bool :=
  match exact_scaled 60 x with
  | Some X => Z.abs (25 * X - 2 * i * 2 ^ 60) <=? 25 * 2 ^ 8
  | None => false
  end.

(** The position the script gives to node [i] of [N], for a cable of length
    [len]: the script's expression in binary64. *)
Definition node_position (len : float) (N i : Z) : ChVectorD :=
  mkVector (len * rounded_quotient i (N - 1))%float lit_0_5 float_zero.

Definition node_direction : ChVectorD := mkVector 1%float float_zero float_zero.

(** The diameter an element works with: that of the section it refers to, as
    the store has it now. *)
Definition element_diameter (st : State) (e : ChElementCableANCF) : option float :=
  match el_section e with
  | Some sec => sections st !! sec ≫= diameter
  | None => None
  end.

(** A run retried a step at a reduced size: its last two step requests are for
    two sizes, the second smaller than the first. *)
Definition retried_at_reduced_step (t : list Event) : Prop :=
  exists earlier dt1 dt2,
    step_sizes t = earlier ++ [Some dt1; Some dt2] /\ (dt2 <? dt1)%float = true.

(** Two engines to run the loop with: one that leaves every node where it is,
    and one that raises exactly when asked for the step size 0.01 (any other
    step goes through). *)
Definition engine_at_rest : option float -> State -> result (nat -> ChNodeFEAxyzD) :=
  fun _ st => Ok (fun i => default (mkNode node_direction node_direction) (nodes st !! i)).

Definition engine_failing_at_0_01 : option float -> State -> result (nat -> ChNodeFEAxyzD) :=
  fun dt st =>
    match dt with
    | Some d => if (d =? lit_0_01)%float then Raise EngineError else engine_at_rest dt st
    | None => engine_at_rest dt st
    end.

(** An engine that goes through until the step of frame [n] (counted from 1),
    which raises: the state it is called in holds one step request for each
    frame begun so far. *)
Definition engine_failing_in_frame (n : nat) :
  option float -> State -> result (nat -> ChNodeFEAxyzD) :=
  fun dt st =>
    if Nat.eqb (length (step_sizes (trace st))) n then Raise EngineError
    else engine_at_rest dt st.

(** What the two creation loops leave alone. *)
Record untouched (st st' : State) : Prop := mkUntouched {
  untouched_systems : systems st' = systems st;
  untouched_sections : sections st' = sections st;
  untouched_bodies : bodies st' = bodies st;
  untouched_links : links st' = links st;
  untouched_solvers : solvers st' = solvers st;
  untouched_apps : apps st' = apps st;
  untouched_length : py_length st' = py_length st;
  untouched_N_nodes : py_N_nodes st' = py_N_nodes st }.

(** The node the script creates at index [i]. *)
Definition new_node (len : float) (N i : Z) : ChNodeFEAxyzD :=
  mkNode (node_position len N i) node_direction.

(** A mesh with more nodes, a mesh with more elements. *)
Definition with_nodes (hs : list handle) (m : ChMesh) : ChMesh :=
  mkMesh (mesh_nodes m ++ hs) (mesh_elements m).
Definition with_elements (hs : list handle) (m : ChMesh) : ChMesh :=
  mkMesh (mesh_nodes m) (mesh_elements m ++ hs).

(** The element between entries [j] and [j + 1] of the node list [bn]. *)
Definition element_between (bn : list handle) (mat : handle) (j : nat)
    : ChElementCableANCF :=
  mkElement (Some (nth j bn O, nth (S j) bn O)) (Some mat).

(** What the last phases of the setup (visualisation, solver, application)
    leave alone: the whole cable. *)
Record same_cable (st st' : State) : Prop := mkSameCable {
  same_nodes : nodes st' = nodes st;
  same_elements : elements st' = elements st;
  same_meshes : meshes st' = meshes st;
  same_sections : sections st' = sections st;
  same_bodies : bodies st' = bodies st;
  same_links : links st' = links st;
  same_beam_nodes : py_beam_nodes st' = py_beam_nodes st;
  same_N_nodes : py_N_nodes st' = py_N_nodes st;
  same_length : py_length st' = py_length st }.

(** The state the script reaches before it creates its nodes. *)
Definition before_nodes : State :=
  Eval vm_compute in
    snd ((called "SetChronoDataPath" [AStr CHRONO_DATA_DIR] ;;
          system <- create_system ;;
          _ <- create_mesh system ;;
          create_material) initial_state).

(** * Lemmas *)

(** ** Python arithmetic on sample values *)

Example int_true_divide_3_15 :
  int_true_divide 3 15 = Ok 0.2%float.
Proof. vm_compute. reflexivity. Qed.

Example int_true_divide_neg_zero :
  int_true_divide 0 (-5) = Ok (-0)%float.
Proof. vm_compute. reflexivity. Qed.

Example int_true_divide_by_zero :
  int_true_divide 0 0 = Raise ZeroDivisionError.
Proof. reflexivity. Qed.

Example int_true_divide_overflow :
  int_true_divide (2 ^ 1024) 1 = Raise OverflowError
  /\ int_true_divide (2 ^ 1024 - 2 ^ 970 - 1) 1 = Ok 0x1.fffffffffffffp+1023%float.
Proof. split; vm_compute; reflexivity. Qed.

(** Beyond the doubles: large operands, a negative divisor, a subnormal
    quotient and one that rounds to zero, as CPython 3 computes them. *)
Example int_true_divide_large :
  int_true_divide (10 ^ 30 + 7) (3 ^ 40) = Ok 0x1.326a39537b318p+36%float /\
  int_true_divide (2 ^ 54 + 3) 3 = Ok 0x1.5555555555556p+52%float /\
  int_true_divide 7 (- 10 ^ 25) = Ok (-0x1.b1476d71f2e1ep-81)%float /\
  int_true_divide 3 (2 ^ 1075) = Ok 0x0.0000000000002p-1022%float /\
  int_true_divide 1 (2 ^ 1075) = Ok 0%float.
Proof. split_and!; vm_compute; reflexivity. Qed.

(** On integers that are doubles themselves the quotient is the hardware
    division of the two doubles. *)
Example rounded_quotient_small :
  forallb (fun i => forallb (fun j =>
      PrimFloat.Leibniz.eqb (rounded_quotient i j)
        (float_of_Z i / float_of_Z j)%float)
    (seqZ 1 40)) (seqZ (-20) 60) = true.
Proof. vm_compute. reflexivity. Qed.


Lemma count_events_app p t1 t2 :
  count_events p (t1 ++ t2) = (count_events p t1 + count_events p t2)%nat.
Proof. induction t1 as [|ev t1 IH]; simpl; [reflexivity | rewrite IH; lia]. Qed.

Lemma count_events_frames p (fe : list Event) k :
  count_events p (mjoin (replicate k fe)) = (k * count_events p fe)%nat.
Proof.
  induction k as [|k IH]; simpl; [reflexivity|].
  rewrite count_events_app, IH. reflexivity.
Qed.

Lemma step_sizes_app t1 t2 :
  step_sizes (t1 ++ t2) = step_sizes t1 ++ step_sizes t2.
Proof.
  induction t1 as [|ev t1 IH]; simpl; [reflexivity|].
  destruct ev; simpl; rewrite IH; reflexivity.
Qed.

Lemma step_sizes_frames app dt k :
  step_sizes (mjoin (replicate k (frame_events app dt))) = replicate k dt.
Proof.
  induction k as [|k IH]; simpl; [reflexivity|]. rewrite IH. reflexivity.
Qed.

Lemma frozen_refl st : frozen st st.
Proof. constructor; reflexivity. Qed.

Lemma frozen_trans st1 st2 st3 : frozen st1 st2 -> frozen st2 st3 -> frozen st1 st3.
Proof. intros [] []. constructor; congruence. Qed.

Section RenderLoopFacts.

Variable DoStepDynamics :
  option float -> State -> result (nat -> ChNodeFEAxyzD).


Lemma frame_unfold app st :
  frame DoStepDynamics app st =
  match DoStepDynamics (apps st !! app ≫= app_timestep) (at_step app st) with
  | Raise e => (Raise e, at_step app st)
  | Ok new_node =>
      (Ok tt, add_event (Called "EndScene" [])
                (upd_nodes (imap (fun i _ => new_node i)) (at_step app st)))
  end.
Proof.
  unfold frame, DoStep, bind, render_call, called, modify, at_step. simpl.
  destruct (DoStepDynamics _ _); reflexivity.
Qed.

Lemma render_loop_S n app st :
  render_loop DoStepDynamics (S n) app st =
  let st0 := add_event (Called "run" []) st in
  match DoStepDynamics (apps st !! app ≫= app_timestep) (at_step app st0) with
  | Raise e => (Raise e, at_step app st0)
  | Ok new_node =>
      render_loop DoStepDynamics n app
        (add_event (Called "EndScene" [])
           (upd_nodes (imap (fun i _ => new_node i)) (at_step app st0)))
  end.
Proof.
  cbn [render_loop]. unfold bind at 1. unfold render_call at 1.
  unfold called, modify. unfold bind at 1. rewrite frame_unfold.
  cbv zeta.
  change (apps (add_event (Called "run" []) st)) with (apps st).
  destruct (DoStepDynamics _ _); reflexivity.
Qed.

(** The whole run of the loop, in closed form: [frames] complete frames and
    the final [run()], or some complete frames and one whose step raised. *)
Lemma render_loop_run frames app st :
  let dt := apps st !! app ≫= app_timestep in
  let out := render_loop DoStepDynamics frames app st in
  frozen st (snd out) /\
  match fst out with
  | Ok _ =>
      trace (snd out) =
      trace st ++ mjoin (replicate frames (frame_events app dt))
               ++ [Called "run" []]
  | Raise e =>
      exists k, (k < frames)%nat /\
        trace (snd out) =
        trace st ++ mjoin (replicate k (frame_events app dt))
                 ++ failed_frame_events app dt /\
        DoStepDynamics dt (snd out) = Raise e
  end.
Proof.
  revert st. induction frames as [|n IH]; intros st dt out.
  - subst out. simpl. split; [constructor; reflexivity | reflexivity].
  - subst out. rewrite render_loop_S. cbv zeta.
    set (st0 := add_event (Called "run" []) st).
    fold dt.
    destruct (DoStepDynamics dt (at_step app st0)) as [new_node|e] eqn:Hstep.
    + set (st1 := add_event _ _).
      specialize (IH st1).
      change (apps st1) with (apps st) in IH. fold dt in IH.
      cbv zeta in IH. destruct IH as [Hfr IH].
      assert (Hfr1 : frozen st st1).
      { constructor; try reflexivity. subst st1. simpl. apply length_imap. }
      assert (Htr1 : trace st1 = trace st ++ frame_events app dt).
      { subst st1 st0. simpl. rewrite <- !app_assoc. reflexivity. }
      split; [eapply frozen_trans; eassumption|].
      destruct (fst (render_loop DoStepDynamics n app st1)) as [[]|e].
      * rewrite IH, Htr1. rewrite <- !app_assoc. reflexivity.
      * destruct IH as (k & Hk & Htr & Hraise).
        exists (S k). split; [lia|]. split; [|exact Hraise].
        rewrite Htr, Htr1. rewrite <- !app_assoc. reflexivity.
    + simpl. split; [constructor; reflexivity|].
      exists O. split; [lia|]. split.
      * subst st0. simpl. rewrite <- !app_assoc. reflexivity.
      * exact Hstep.
Qed.

Lemma render_loop_run_at frames app st dt :
  apps st !! app ≫= app_timestep = dt ->
  let out := render_loop DoStepDynamics frames app st in
  frozen st (snd out) /\
  match fst out with
  | Ok _ =>
      trace (snd out) =
      trace st ++ mjoin (replicate frames (frame_events app dt))
               ++ [Called "run" []]
  | Raise e =>
      exists k, (k < frames)%nat /\
        trace (snd out) =
        trace st ++ mjoin (replicate k (frame_events app dt))
                 ++ failed_frame_events app dt /\
        DoStepDynamics dt (snd out) = Raise e
  end.
Proof. intros <-. apply render_loop_run. Qed.

(** A step that raises ends the loop at once.  When the loop, had the window
    closed after [k] frames, would have returned in [s] (so [s] is the state
    in which the next frame begins), and the step of that frame raises, every
    longer loop ends there, in the state of that request, with that
    exception. *)
Lemma render_loop_raise_at k frames app st s e dt :
  apps st !! app ≫= app_timestep = dt ->
  (k < frames)%nat ->
  render_loop DoStepDynamics k app st = (Ok tt, s) ->
  DoStepDynamics dt (at_step app s) = Raise e ->
  render_loop DoStepDynamics frames app st = (Raise e, at_step app s).
Proof.
  intros <-. revert frames st.
  induction k as [|k IH]; intros frames st Hlt Hk Hstep.
  - destruct frames as [|n]; [lia|].
    cbn [render_loop] in Hk. unfold render_call, called, modify in Hk.
    injection Hk as <-.
    rewrite render_loop_S. cbv zeta. rewrite Hstep. reflexivity.
  - destruct frames as [|n]; [lia|].
    rewrite render_loop_S in Hk. rewrite render_loop_S. cbv zeta in Hk |- *.
    destruct (DoStepDynamics (apps st !! app ≫= app_timestep)
                (at_step app (add_event (Called "run" []) st))) as [f|e'];
      [|discriminate].
    apply IH; [lia | exact Hk | exact Hstep].
Qed.

(** A step that goes through is followed by the frame's [EndScene] and by the
    next [run()]: the loop of one more frame returns after them. *)
Lemma render_loop_ok_step k app st s new_node :
  render_loop DoStepDynamics k app st = (Ok tt, s) ->
  DoStepDynamics (apps st !! app ≫= app_timestep) (at_step app s) = Ok new_node ->
  render_loop DoStepDynamics (S k) app st =
    (Ok tt, add_event (Called "run" [])
              (add_event (Called "EndScene" [])
                 (upd_nodes (imap (fun i _ => new_node i)) (at_step app s)))).
Proof.
  revert st. induction k as [|k IH]; intros st Hk Hstep.
  - cbn [render_loop] in Hk. unfold render_call, called, modify in Hk.
    injection Hk as <-.
    rewrite render_loop_S. cbv zeta. rewrite Hstep. reflexivity.
  - rewrite render_loop_S in Hk. rewrite render_loop_S. cbv zeta in Hk |- *.
    destruct (DoStepDynamics (apps st !! app ≫= app_timestep)
                (at_step app (add_event (Called "run" []) st))) as [f|e'];
      [|discriminate].
    apply IH; [exact Hk | exact Hstep].
Qed.

(** The state in which a loop of [k] frames returns is frozen with respect to
    the start, and its trace is that of [k] complete frames and the last
    [run()]. *)
Lemma render_loop_ok_state k app st s :
  render_loop DoStepDynamics k app st = (Ok tt, s) ->
  apps s = apps st /\
  trace s = trace st
            ++ mjoin (replicate k (frame_events app (apps st !! app ≫= app_timestep)))
            ++ [Called "run" []].
Proof.
  intros Hk.
  pose proof (render_loop_run k app st) as H. cbv zeta in H.
  rewrite Hk in H. cbn [fst snd] in H. destruct H as [[] H].
  split; assumption.
Qed.

End RenderLoopFacts.

(** ** The script before and during its render loop *)

Lemma setup_eval : setup_with lit_1_2 16 initial_state = (Ok 0%nat, after_setup).
Proof. vm_compute. reflexivity. Qed.

Lemma bind_ok {A B} (m : M A) (k : A -> M B) st a st' :
  m st = (Ok a, st') -> bind m k st = k a st'.
Proof. unfold bind. intros ->. reflexivity. Qed.

Lemma script_unfold engine frames :
  script engine frames initial_state = render_loop engine frames 0%nat after_setup.
Proof.
  unfold script, script_with.
  exact (bind_ok (setup_with lit_1_2 16)
           (fun app => render_loop engine frames app)
           initial_state 0%nat after_setup setup_eval).
Qed.

(** Every run of the script, however long the window stays open and whatever
    the engine does: the objects are those of [after_setup], and the trace is
    that of the setup followed by frames that all ask for the step 0.01. *)
Lemma script_run engine frames :
  let st := snd (script engine frames initial_state) in
  frozen after_setup st /\
  exists k tail,
    trace st =
    trace after_setup ++ mjoin (replicate k (frame_events 0%nat (Some lit_0_01)))
                      ++ tail /\
    (tail = [Called "run" []] \/ tail = failed_frame_events 0%nat (Some lit_0_01)).
Proof.
  cbv zeta. rewrite script_unfold.
  assert (Hdt : apps after_setup !! 0%nat ≫= app_timestep = Some lit_0_01)
    by (vm_compute; reflexivity).
  pose proof (render_loop_run_at engine frames 0%nat after_setup _ Hdt) as H.
  cbv zeta in H. destruct H as [Hfr H]. split; [exact Hfr|].
  destruct (fst (render_loop engine frames 0%nat after_setup)) as [[]|e].
  - exists frames, [Called "run" []]. split; [exact H | left; reflexivity].
  - destruct H as (k & _ & Htr & _).
    exists k, (failed_frame_events 0%nat (Some lit_0_01)).
    split; [exact Htr | right; reflexivity].
Qed.

Lemma count_events_frame_tail p app dt :
  count_events p (frame_events app dt) = 0%nat ->
  count_events p [Called "run" []] = 0%nat /\
  count_events p (failed_frame_events app dt) = 0%nat.
Proof.
  unfold frame_events, failed_frame_events. cbn [count_events].
  intros H. split; lia.
Qed.

(** A call that the render loop does not make is counted as in the setup. *)
Lemma count_events_script p engine frames :
  count_events p (frame_events 0%nat (Some lit_0_01)) = 0%nat ->
  count_events p (trace (snd (script engine frames initial_state))) =
  count_events p (trace after_setup).
Proof.
  intros Hp. destruct (script_run engine frames) as [_ (k & tail & Htr & Htail)].
  rewrite Htr, !count_events_app, count_events_frames, Hp.
  destruct (count_events_frame_tail p _ _ Hp) as [H1 H2].
  destruct Htail as [-> | ->]; [rewrite H1 | rewrite H2]; lia.
Qed.

(** ** Python values *)

Lemma py_getitem_lookup {A} (l : list A) (i : nat) x :
  l !! i = Some x -> py_getitem l (Z.of_nat i) = Ok x.
Proof.
  intros H. pose proof (lookup_lt_Some _ _ _ H) as Hlt.
  unfold py_getitem.
  destruct (Z.ltb_spec (Z.of_nat i) 0) as [?|_]; [lia|].
  destruct (Z.leb_spec 0 (Z.of_nat i)) as [_|?]; [|lia].
  destruct (Z.ltb_spec (Z.of_nat i) (Z.of_nat (length l))) as [_|?]; [|lia].
  cbn. rewrite Nat2Z.id, H. reflexivity.
Qed.

Lemma py_getitem_empty {A} (i : Z) : py_getitem (@nil A) i = Raise IndexError.
Proof.
  unfold py_getitem. cbn [length]. change (Z.of_nat 0) with 0.
  set (j := if i <? 0 then i + 0 else i).
  destruct ((0 <=? j) && (j <? 0)) eqn:E; [|reflexivity].
  apply andb_true_iff in E. destruct E as [E1 E2].
  apply Z.leb_le in E1. apply Z.ltb_lt in E2. lia.
Qed.

(** Dividing an index by the last index never overflows. *)
Lemma int_true_divide_index (i b : Z) :
  0 <= i <= b -> 0 < b -> int_true_divide i b = Ok (rounded_quotient i b).
Proof.
  intros Hi Hb. unfold int_true_divide.
  destruct (Z.eqb_spec b 0) as [?|_]; [lia|].
  destruct (Z.leb_spec (overflow_threshold * Z.abs b) (Z.abs i)) as [H|_];
    [|reflexivity].
  exfalso.
  assert (Ht : 2 <= overflow_threshold) by (vm_compute; discriminate).
  rewrite !Z.abs_eq in H by lia. nia.
Qed.

(** ** Statements *)

Lemma for_each_inv {A} (I : nat -> State -> Prop) (body : A -> M unit) (l : list A) :
  (forall k x st, l !! k = Some x -> I k st ->
     exists st', body x st = (Ok tt, st') /\ I (S k) st') ->
  forall st, I O st ->
  exists st', for_each l body st = (Ok tt, st') /\ I (length l) st'.
Proof.
  revert I. induction l as [|x l IH]; intros I Hstep st H0.
  - exists st. split; [reflexivity | exact H0].
  - destruct (Hstep O x st eq_refl H0) as (st1 & Hb & H1).
    destruct (IH (fun k => I (S k)) (fun k y s Hl => Hstep (S k) y s Hl) st1 H1)
      as (st' & Hf & Hl).
    exists st'. split; [|exact Hl].
    cbn [for_each]. rewrite (bind_ok _ _ _ _ _ Hb). exact Hf.
Qed.

Lemma alter_snoc {A} (f : A -> A) (l : list A) (x : A) :
  alter f (length l) (l ++ [x]) = l ++ [f x].
Proof.
  rewrite <- (Nat.add_0_r (length l)) at 1. rewrite alter_app_r. reflexivity.
Qed.

Lemma untouched_refl st : untouched st st.
Proof. constructor; reflexivity. Qed.

Lemma untouched_trans st1 st2 st3 :
  untouched st1 st2 -> untouched st2 st3 -> untouched st1 st3.
Proof. intros [] []. constructor; congruence. Qed.

(** ** The two creation loops *)

Ltac run_statements :=
  cbv [node_body element_body add_constraints visualization configure_solver
       prepare_application scene_setup create_system create_mesh create_material
       bind ret lift modify called render_call read_var
       new_ChSystemNSC Set_G_acc system_Add SetSolver SetTimestepperType
       new_ChMesh AddNode AddElement new_ChBeamSectionCable SetDiameter
       SetYoungModulus SetBeamRaleyghDamping new_ChNodeFEAxyzD
       new_ChElementCableANCF SetNodes SetSection new_ChBody SetBodyFixed
       new_ChLinkPointFrame Initialize new_ChSolverMINRES SetMaxIterations
       SetTolerance EnableWarmStart new_ChIrrApp SetTimestep SetTryRealtime
       assign_length assign_N_nodes assign_beam_nodes beam_nodes_append
       upd_systems upd_meshes upd_sections upd_nodes upd_elements upd_bodies
       upd_links upd_solvers upd_apps set_py_length set_py_N_nodes
       set_py_beam_nodes add_event
       systems meshes sections nodes elements bodies links solvers apps
       py_length py_N_nodes py_beam_nodes trace].

Lemma node_body_run mesh i st len N bn :
  py_length st = Some len -> py_N_nodes st = Some N ->
  py_beam_nodes st = Some bn -> 0 <= i <= N - 1 -> 0 < N - 1 ->
  exists st',
    node_body mesh i st = (Ok tt, st') /\
    untouched st st' /\
    elements st' = elements st /\
    nodes st' = nodes st ++ [new_node len N i] /\
    py_beam_nodes st' = Some (bn ++ [length (nodes st)]) /\
    meshes st' = alter (with_nodes [length (nodes st)]) mesh (meshes st).
Proof.
  destruct st. intros Hlen HNn Hbn Hi HN. cbn in Hlen, HNn, Hbn. subst.
  run_statements. rewrite (int_true_divide_index _ _ Hi HN).
  eexists. split; [reflexivity|].
  cbn. repeat split.
Qed.

Lemma element_body_run mesh mat ie st bn a b :
  py_beam_nodes st = Some bn ->
  py_getitem bn ie = Ok a -> py_getitem bn (ie + 1) = Ok b ->
  exists st',
    element_body mesh mat ie st = (Ok tt, st') /\
    untouched st st' /\
    nodes st' = nodes st /\
    py_beam_nodes st' = Some bn /\
    elements st' = elements st ++ [mkElement (Some (a, b)) (Some mat)] /\
    meshes st' = alter (with_elements [length (elements st)]) mesh (meshes st).
Proof.
  destruct st. intros Hbn Ha Hb. cbn in Hbn. subst.
  run_statements. rewrite Ha, Hb.
  eexists. split; [reflexivity|].
  cbn. repeat split. rewrite list_alter_alter_eq, alter_snoc. reflexivity.
Qed.

Lemma read_var_some {A} (get : State -> option A) st v :
  get st = Some v -> read_var get st = (Ok v, st).
Proof. unfold read_var. intros ->. reflexivity. Qed.

Lemma with_nodes_nil m : with_nodes [] m = m.
Proof. destruct m. unfold with_nodes. cbn. rewrite app_nil_r. reflexivity. Qed.

Lemma with_elements_nil m : with_elements [] m = m.
Proof. destruct m. unfold with_elements. cbn. rewrite app_nil_r. reflexivity. Qed.

Lemma node_loop_run mesh st len N bn :
  2 <= N -> py_length st = Some len -> py_N_nodes st = Some N ->
  py_beam_nodes st = Some bn ->
  exists st',
    node_loop mesh st = (Ok tt, st') /\
    untouched st st' /\
    elements st' = elements st /\
    nodes st' = nodes st ++ (new_node len N <$> seqZ 0 N) /\
    py_beam_nodes st' = Some (bn ++ seq (length (nodes st)) (Z.to_nat N)) /\
    meshes st' =
      alter (with_nodes (seq (length (nodes st)) (Z.to_nat N))) mesh (meshes st).
Proof.
  intros HN Hlen HNn Hbn.
  set (n0 := length (nodes st)).
  pose (I := fun (k : nat) (s : State) =>
    untouched st s /\
    elements s = elements st /\
    nodes s = nodes st ++ (new_node len N <$> seqZ 0 (Z.of_nat k)) /\
    py_beam_nodes s = Some (bn ++ seq n0 k) /\
    meshes s = alter (with_nodes (seq n0 k)) mesh (meshes st)).
  destruct (for_each_inv I (node_body mesh) (py_range N)) with (st := st)
    as (st' & Hrun & HI).
  - intros k x s Hx (Hu & Hel & Hno & Hb & Hm).
    apply lookup_seqZ in Hx. destruct Hx as [-> Hk].
    destruct (node_body_run mesh (0 + Z.of_nat k) s len N (bn ++ seq n0 k))
      as (s' & Hbody & Hu' & Hel' & Hno' & Hb' & Hm'); try lia.
    + rewrite (untouched_length _ _ Hu). exact Hlen.
    + rewrite (untouched_N_nodes _ _ Hu). exact HNn.
    + exact Hb.
    + assert (Hlen_s : length (nodes s) = (n0 + k)%nat).
      { rewrite Hno, length_app, length_fmap, length_seqZ. subst n0. lia. }
      exists s'. split; [exact Hbody|]. split_and!.
      * apply (untouched_trans _ _ _ Hu Hu').
      * congruence.
      * rewrite Hno', Hno, seqZ_S, fmap_app, <- app_assoc. reflexivity.
      * rewrite Hb', Hlen_s, seq_S, <- app_assoc. reflexivity.
      * rewrite Hm', Hm, Hlen_s, list_alter_alter_eq.
        apply list_alter_ext; [|reflexivity].
        intros m _. unfold with_nodes, compose. cbn [mesh_nodes mesh_elements].
        rewrite seq_S, app_assoc. reflexivity.
  - split_and!.
    + apply untouched_refl.
    + reflexivity.
    + cbn. rewrite app_nil_r. reflexivity.
    + cbn. rewrite app_nil_r. exact Hbn.
    + cbn. rewrite list_alter_id by apply with_nodes_nil. reflexivity.
  - unfold py_range in HI. rewrite length_seqZ in HI.
    subst I. cbv beta in HI. rewrite Z2Nat.id in HI by lia.
    destruct HI as (Hu & Hel & Hno & Hb & Hm).
    exists st'. split; [|split_and!; assumption].
    unfold node_loop. rewrite (bind_ok _ _ _ _ _ (read_var_some _ _ _ HNn)).
    exact Hrun.
Qed.

(** The first [n] passes of the element loop, on a list long enough for them. *)
Lemma element_iterations_run mesh mat st n bn :
  py_beam_nodes st = Some bn ->
  (Z.to_nat n = 0 \/ Z.to_nat n < length bn)%nat ->
  exists st',
    for_each (py_range n) (element_body mesh mat) st = (Ok tt, st') /\
    untouched st st' /\
    nodes st' = nodes st /\
    py_beam_nodes st' = Some bn /\
    elements st' =
      elements st ++ (element_between bn mat <$> seq 0 (Z.to_nat n)) /\
    meshes st' =
      alter (with_elements (seq (length (elements st)) (Z.to_nat n)))
        mesh (meshes st).
Proof.
  intros Hbn Hlen.
  set (e0 := length (elements st)).
  pose (I := fun (k : nat) (s : State) =>
    untouched st s /\
    nodes s = nodes st /\
    py_beam_nodes s = Some bn /\
    elements s = elements st ++ (element_between bn mat <$> seq 0 k) /\
    meshes s = alter (with_elements (seq e0 k)) mesh (meshes st)).
  destruct (for_each_inv I (element_body mesh mat) (py_range n))
    with (st := st) as (st' & Hrun & HI).
  - intros k x s Hx (Hu & Hno & Hb & Hel & Hm).
    apply lookup_seqZ in Hx. destruct Hx as [-> Hk].
    destruct (lookup_lt_is_Some_2 bn k) as [a Ha]; [lia|].
    destruct (lookup_lt_is_Some_2 bn (S k)) as [b Hb2]; [lia|].
    destruct (element_body_run mesh mat (0 + Z.of_nat k) s bn a b)
      as (s' & Hbody & Hu' & Hno' & Hb' & Hel' & Hm').
    + exact Hb.
    + apply py_getitem_lookup. exact Ha.
    + replace (0 + Z.of_nat k + 1) with (Z.of_nat (S k)) by lia.
      apply py_getitem_lookup. exact Hb2.
    + assert (Hlen_s : length (elements s) = (e0 + k)%nat).
      { rewrite Hel, length_app, length_fmap, length_seq. subst e0. lia. }
      exists s'. split; [exact Hbody|]. split_and!.
      * apply (untouched_trans _ _ _ Hu Hu').
      * congruence.
      * exact Hb'.
      * rewrite Hel', Hel, seq_S, fmap_app, <- app_assoc. cbn.
        unfold element_between.
        rewrite (nth_lookup_Some _ _ _ _ Ha), (nth_lookup_Some _ _ _ _ Hb2).
        reflexivity.
      * rewrite Hm', Hm, Hlen_s, list_alter_alter_eq.
        apply list_alter_ext; [|reflexivity].
        intros m _. unfold with_elements, compose. cbn [mesh_nodes mesh_elements].
        rewrite seq_S, app_assoc. reflexivity.
  - split_and!.
    + apply untouched_refl.
    + reflexivity.
    + exact Hbn.
    + cbn. rewrite app_nil_r. reflexivity.
    + cbn. rewrite list_alter_id by apply with_elements_nil. reflexivity.
  - unfold py_range in HI. rewrite length_seqZ in HI.
    subst I. cbv beta in HI. destruct HI as (Hu & Hno & Hb & Hel & Hm).
    exists st'. split; [exact Hrun | split_and!; assumption].
Qed.

Lemma element_loop_run mesh mat st N bn :
  py_N_nodes st = Some N -> py_beam_nodes st = Some bn ->
  length bn = Z.to_nat N ->
  exists st',
    element_loop mesh mat st = (Ok tt, st') /\
    untouched st st' /\
    nodes st' = nodes st /\
    py_beam_nodes st' = Some bn /\
    elements st' =
      elements st ++ (element_between bn mat <$> seq 0 (Z.to_nat (N - 1))) /\
    meshes st' =
      alter (with_elements (seq (length (elements st)) (Z.to_nat (N - 1))))
        mesh (meshes st).
Proof.
  intros HNn Hbn Hlen.
  destruct (element_iterations_run mesh mat st (N - 1) bn Hbn)
    as (st' & Hrun & H); [lia|].
  exists st'. split; [|exact H].
  unfold element_loop. rewrite (bind_ok _ _ _ _ _ (read_var_some _ _ _ HNn)).
  exact Hrun.
Qed.

(** ** The phases of the setup *)

Lemma create_nodes_run mesh st len N :
  2 <= N ->
  exists st',
    create_nodes mesh len N st = (Ok tt, st') /\
    (systems st' = systems st /\ sections st' = sections st /\
     bodies st' = bodies st /\ links st' = links st /\
     elements st' = elements st) /\
    py_length st' = Some len /\
    py_N_nodes st' = Some N /\
    nodes st' = nodes st ++ (new_node len N <$> seqZ 0 N) /\
    py_beam_nodes st' = Some (seq (length (nodes st)) (Z.to_nat N)) /\
    meshes st' =
      alter (with_nodes (seq (length (nodes st)) (Z.to_nat N))) mesh (meshes st).
Proof.
  intros HN. destruct st.
  cbv [create_nodes]. run_statements.
  match goal with
  | |- context [node_loop mesh ?s] =>
      destruct (node_loop_run mesh s len N [] HN eq_refl eq_refl eq_refl)
        as (st' & Hrun & [] & Hel & Hno & Hb & Hm)
  end.
  exists st'. split; [exact Hrun|]. cbn in *. split_and!; first [assumption | congruence].
Qed.

Lemma add_constraints_run system st bn node0 :
  py_beam_nodes st = Some bn -> py_getitem bn 0 = Ok node0 ->
  exists st',
    add_constraints system st = (Ok tt, st') /\
    (nodes st' = nodes st /\ elements st' = elements st /\
     meshes st' = meshes st /\ sections st' = sections st /\
     py_beam_nodes st' = py_beam_nodes st /\ py_N_nodes st' = py_N_nodes st /\
     py_length st' = py_length st) /\
    bodies st' = bodies st ++ [mkBody (Some true)] /\
    links st' = links st ++ [mkLink (Some node0) (Some (length (bodies st)))].
Proof.
  destruct st. intros Hb H0. cbn in Hb. subst. run_statements. rewrite H0.
  eexists. split; [reflexivity|]. cbn.
  split_and!; rewrite ?alter_snoc; reflexivity.
Qed.

Lemma last_phases_run system st :
  exists st',
    (visualization ;; configure_solver system ;; prepare_application system) st
    = (Ok (length (apps st)), st') /\
    same_cable st st'.
Proof.
  destruct st. run_statements.
  eexists. split; [reflexivity|]. constructor; reflexivity.
Qed.

(** The whole setup, for any cable length and any node count from 2 on: it
    goes through, and leaves the cable described below. *)
Lemma setup_with_run len N :
  2 <= N ->
  exists app st,
    setup_with len N initial_state = (Ok app, st) /\
    nodes st = (new_node len N <$> seqZ 0 N) /\
    py_beam_nodes st = Some (seq 0 (Z.to_nat N)) /\
    elements st =
      (element_between (seq 0 (Z.to_nat N)) 0%nat <$> seq 0 (Z.to_nat (N - 1))) /\
    meshes st = [mkMesh (seq 0 (Z.to_nat N)) (seq 0 (Z.to_nat (N - 1)))] /\
    sections st = [mkSection (Some lit_0_01) (Some lit_0_01e9) (Some lit_0_01)] /\
    bodies st = [mkBody (Some true)] /\
    links st = [mkLink (Some 0%nat) (Some 0%nat)] /\
    py_N_nodes st = Some N /\
    py_length st = Some len.
Proof.
  intros HN.
  destruct (create_nodes_run 0%nat before_nodes len N HN)
    as (st1 & H1 & (Hsy1 & Hse1 & Hbo1 & Hli1 & Hel1) & Hlen1 & HN1 & Hno1 & Hbn1 & Hme1).
  change (nodes before_nodes) with (@nil ChNodeFEAxyzD) in Hno1, Hbn1, Hme1.
  change (length (@nil ChNodeFEAxyzD)) with O in Hbn1, Hme1.
  destruct (element_loop_run 0%nat 0%nat st1 N (seq 0 (Z.to_nat N)) HN1 Hbn1)
    as (st2 & H2 & Hu2 & Hno2 & Hbn2 & Hel2 & Hme2);
    [apply length_seq|].
  destruct (add_constraints_run 0%nat st2 (seq 0 (Z.to_nat N)) 0%nat Hbn2)
    as (st3 & H3 & (Hno3 & Hel3 & Hme3 & Hse3 & Hbn3 & HN3 & Hlen3) & Hbo3 & Hli3).
  { apply (py_getitem_lookup _ 0%nat). apply lookup_seq_lt. lia. }
  destruct (last_phases_run 0%nat st3) as (st4 & H4 & []).
  exists (length (apps st3)), st4. split.
  - unfold setup_with.
    do 4 (erewrite bind_ok by (vm_compute; reflexivity); cbv beta).
    unfold before_nodes in H1. rewrite (bind_ok _ _ _ _ _ H1).
    unfold create_elements. rewrite (bind_ok _ _ _ _ _ H2).
    rewrite (bind_ok _ _ _ _ _ H3). exact H4.
  - destruct Hu2.
    split_and!.
    + rewrite same_nodes0, Hno3, Hno2, Hno1. reflexivity.
    + rewrite same_beam_nodes0, Hbn3, Hbn2. reflexivity.
    + rewrite same_elements0, Hel3, Hel2, Hel1. reflexivity.
    + rewrite same_meshes0, Hme3, Hme2, Hme1, Hel1. reflexivity.
    + rewrite same_sections0, Hse3, untouched_sections0, Hse1. reflexivity.
    + rewrite same_bodies0, Hbo3, untouched_bodies0, Hbo1. reflexivity.
    + rewrite same_links0, Hli3, untouched_links0, Hli1, untouched_bodies0, Hbo1.
      reflexivity.
    + rewrite same_N_nodes0, HN3, untouched_N_nodes0, HN1. reflexivity.
    + rewrite same_length0, Hlen3, untouched_length0, Hlen1. reflexivity.
Qed.

Lemma step_sizes_script engine frames :
  Forall (fun dt => dt = Some lit_0_01)
    (step_sizes (trace (snd (script engine frames initial_state)))).
Proof.
  destruct (script_run engine frames) as [_ (k & tail & Htr & Htail)].
  rewrite Htr, !step_sizes_app, step_sizes_frames.
  assert (H0 : step_sizes (trace after_setup) = []) by (vm_compute; reflexivity).
  rewrite H0. cbn [app]. apply Forall_app. split.
  - apply Forall_replicate. reflexivity.
  - destruct Htail as [-> | ->]; cbn; repeat constructor.
Qed.

(** * The properties of the specification *)

(** C1.  For every node count [N >= 2] (and every cable length) the setup goes
    through and its element loop leaves exactly [N - 1] elements, all in the
    mesh; [beam_nodes] is the ordered list of the [N] distinct nodes, and
    element [i] connects entry [i] and entry [i + 1] of that list, with the
    one material; no pair of nodes is connected twice. *)
Theorem elements_connect_consecutive_nodes len N :
  2 <= N ->
  exists app st bn,
    setup_with len N initial_state = (Ok app, st) /\
    py_beam_nodes st = Some bn /\
    length bn = Z.to_nat N /\
    NoDup bn /\
    length (elements st) = Z.to_nat (N - 1) /\
    (forall i : nat, (i < Z.to_nat (N - 1))%nat ->
       exists a b,
         bn !! i = Some a /\ bn !! S i = Some b /\
         elements st !! i = Some (mkElement (Some (a, b)) (Some 0%nat))) /\
    NoDup (el_nodes <$> elements st) /\
    meshes st = [mkMesh bn (seq 0 (Z.to_nat (N - 1)))].
Proof.
  intros HN.
  destruct (setup_with_run len N HN)
    as (app & st & Hrun & _ & Hbn & Hel & Hme & _).
  exists app, st, (seq 0 (Z.to_nat N)).
  assert (Hnth : forall j, (j < Z.to_nat (N - 1))%nat ->
            element_between (seq 0 (Z.to_nat N)) 0%nat j
            = mkElement (Some (j, S j)) (Some 0%nat)).
  { intros j Hj. unfold element_between.
    rewrite !seq_nth by lia. reflexivity. }
  split_and!.
  - exact Hrun.
  - exact Hbn.
  - apply length_seq.
  - apply NoDup_seq.
  - rewrite Hel, length_fmap, length_seq. reflexivity.
  - intros i Hi. exists i, (S i). split_and!.
    + apply lookup_seq_lt. lia.
    + apply lookup_seq_lt. lia.
    + rewrite Hel, list_lookup_fmap, lookup_seq_lt by lia. cbn.
      rewrite Hnth by lia. reflexivity.
  - rewrite Hel, <- list_fmap_compose.
    apply NoDup_fmap_2_strong; [|apply NoDup_seq].
    intros x y Hx Hy. apply elem_of_seq in Hx, Hy. unfold compose.
    rewrite !Hnth by lia. cbn. congruence.
  - exact Hme.
Qed.

Lemma elements_connect_consecutive_nodes_witness :
  2 <= 16 /\
  exists app st bn,
    setup_with lit_1_2 16 initial_state = (Ok app, st) /\
    py_beam_nodes st = Some bn /\
    length bn = Z.to_nat 16 /\
    NoDup bn /\
    length (elements st) = Z.to_nat (16 - 1) /\
    (forall i : nat, (i < Z.to_nat (16 - 1))%nat ->
       exists a b,
         bn !! i = Some a /\ bn !! S i = Some b /\
         elements st !! i = Some (mkElement (Some (a, b)) (Some 0%nat))) /\
    NoDup (el_nodes <$> elements st) /\
    meshes st = [mkMesh bn (seq 0 (Z.to_nat (16 - 1)))].
Proof.
  split; [lia | apply (elements_connect_consecutive_nodes lit_1_2 16); lia].
Defined.

(** C5.  The configuration inputs are written once, during the setup, and stay
    as written: in every run of the script (any number of frames, any engine)
    the trace holds exactly one [Set_G_acc], one assignment to [N_nodes] and
    to [length], one call of each material setter, one [SetMaxIterations], one
    [SetTolerance] and one [SetTimestep]; the state at the end of the run
    still holds gravity (0, -9.81, 0), 16 nodes, length 1.2, diameter 0.01,
    modulus 0.01e9, damping 0.01, iteration cap 200, tolerance 1e-10 and step
    size 0.01; and every step asked of the engine is asked with step size
    0.01. *)
Theorem configuration_assigned_once engine frames :
  let st := snd (script engine frames initial_state) in
  (calls_of "Set_G_acc" (trace st) = 1%nat /\
   assignments_of "N_nodes" (trace st) = 1%nat /\
   assignments_of "length" (trace st) = 1%nat /\
   calls_of "SetDiameter" (trace st) = 1%nat /\
   calls_of "SetYoungModulus" (trace st) = 1%nat /\
   calls_of "SetBeamRaleyghDamping" (trace st) = 1%nat /\
   calls_of "SetMaxIterations" (trace st) = 1%nat /\
   calls_of "SetTolerance" (trace st) = 1%nat /\
   calls_of "SetTimestep" (trace st) = 1%nat) /\
  (systems st =
     [mkSystem (Some (mkVector float_zero (- lit_9_81)%float float_zero))
        [ItemMesh 0%nat; ItemBody 0%nat; ItemLink 0%nat] (Some 0%nat)
        (Some Type_EULER_IMPLICIT_LINEARIZED)] /\
   py_N_nodes st = Some 16 /\
   py_length st = Some lit_1_2 /\
   sections st = [mkSection (Some lit_0_01) (Some lit_0_01e9) (Some lit_0_01)] /\
   solvers st = [mkSolver (Some 200) (Some lit_1em10) (Some true)] /\
   apps st = [mkApp 0%nat (Some lit_0_01) (Some true)]) /\
  Forall (fun dt => dt = Some lit_0_01) (step_sizes (trace st)).
Proof.
  cbv zeta. split; [|split].
  - unfold calls_of, assignments_of.
    repeat split;
      (rewrite count_events_script by (vm_compute; reflexivity));
      vm_compute; reflexivity.
  - destruct (script_run engine frames) as [[] _].
    repeat split;
      match goal with H : ?f _ = ?f after_setup |- ?f _ = _ => rewrite H end;
      vm_compute; reflexivity.
  - apply step_sizes_script.
Qed.

(** C6.  The node loop of the script creates exactly 16 nodes, all added to
    the mesh and kept in order in [beam_nodes]; they lie on the straight
    segment y = 0.5, z = 0, with direction (1, 0, 0), and node [i] has the
    abscissa [1.2 * (i / 15)], computed in binary64 as the script writes it;
    that double is within [2^-52] of the real number [1.2 * i / 15], and the
    two ends are exactly 0 and 1.2. *)
Theorem node_loop_positions :
  let st := snd (setup initial_state) in
  fst (setup initial_state) = Ok 0%nat /\
  length (nodes st) = 16%nat /\
  calls_of "ChNodeFEAxyzD" (trace st) = 16%nat /\
  meshes st !! 0%nat ≫= (fun m => Some (mesh_nodes m)) = Some (seq 0 16) /\
  py_beam_nodes st = Some (seq 0 16) /\
  (forall i : nat, (i < 16)%nat ->
     let x := (lit_1_2 * (float_of_Z (Z.of_nat i) / float_of_Z 15))%float in
     nodes st !! i = Some (mkNode (mkVector x lit_0_5 float_zero) node_direction) /\
     x = vx (node_position lit_1_2 16 (Z.of_nat i)) /\
     close_to_uniform (Z.of_nat i) x = true) /\
  nodes st !! 0%nat ≫= (fun n => Some (vx (node_pos n))) = Some 0%float /\
  nodes st !! 15%nat ≫= (fun n => Some (vx (node_pos n))) = Some lit_1_2.
Proof.
  cbv zeta.
  do 5 (split; [vm_compute; reflexivity|]).
  split; [|split; vm_compute; reflexivity].
  intros i Hi.
  do 16 (destruct i as [|i]; [vm_compute; repeat split; reflexivity|]).
  lia.
Qed.

(** C7.  One material object, shared: in every run of the script the store
    holds exactly one beam section, created by the one constructor call, with
    diameter 0.01, modulus 0.01e9 and damping 0.01, each set by exactly one
    call; every one of the 15 elements refers to that section by its handle,
    so that a change of the section would be seen by all of them. *)
Theorem one_shared_material engine frames :
  let st := snd (script engine frames initial_state) in
  sections st = [mkSection (Some lit_0_01) (Some lit_0_01e9) (Some lit_0_01)] /\
  calls_of "ChBeamSectionCable" (trace st) = 1%nat /\
  calls_of "SetDiameter" (trace st) = 1%nat /\
  calls_of "SetYoungModulus" (trace st) = 1%nat /\
  calls_of "SetBeamRaleyghDamping" (trace st) = 1%nat /\
  length (elements st) = 15%nat /\
  calls_of "SetSection" (trace st) = 15%nat /\
  Forall (fun e => el_section e = Some 0%nat) (elements st) /\
  forall d : float,
    Forall (fun e => element_diameter (snd (SetDiameter 0%nat d st)) e = Some d)
      (elements st).
Proof.
  cbv zeta. destruct (script_run engine frames) as [[] _].
  assert (Hsec : sections (snd (script engine frames initial_state)) =
                 [mkSection (Some lit_0_01) (Some lit_0_01e9) (Some lit_0_01)]).
  { rewrite frozen_sections0. vm_compute. reflexivity. }
  assert (Hel : Forall (fun e => el_section e = Some 0%nat)
                  (elements (snd (script engine frames initial_state)))).
  { rewrite frozen_elements0. vm_compute. repeat constructor. }
  split; [exact Hsec|].
  unfold calls_of.
  repeat (split;
    [rewrite count_events_script by (vm_compute; reflexivity);
     vm_compute; reflexivity|]).
  split; [rewrite frozen_elements0; vm_compute; reflexivity|].
  split; [rewrite count_events_script by (vm_compute; reflexivity);
          vm_compute; reflexivity|].
  split; [exact Hel|].
  intros d. eapply Forall_impl; [exact Hel|].
  intros e He. unfold element_diameter. rewrite He.
  unfold SetDiameter, bind, modify, called. cbn. rewrite Hsec. reflexivity.
Qed.

(** C8, as the script has it.  The render loop has no retry and no handler.
    A step that raises ends its frame at the request (the frame's [EndScene]
    is not reached), and with it the loop and the script: when [k] frames go
    through and the step of the next frame raises, a loop of any greater
    number of frames returns that exception, in the state of that request, and
    so does the script.  Each frame asks the engine for one step, at the step
    size stored in the application, which the loop never changes; a run that
    ends with an exception has the engine request as its last event, no second
    request is made for that frame, and the exception is the engine's. *)
Theorem render_loop_no_retry engine frames app st :
  let dt := apps st !! app ≫= app_timestep in
  let out := render_loop engine frames app st in
  (forall e, engine dt (at_step app st) = Raise e ->
     frame engine app st = (Raise e, at_step app st)) /\
  (forall k s e, (k < frames)%nat ->
     render_loop engine k app st = (Ok tt, s) ->
     engine dt (at_step app s) = Raise e ->
     out = (Raise e, at_step app s)) /\
  (forall k s e, (k < frames)%nat ->
     render_loop engine k 0%nat after_setup = (Ok tt, s) ->
     engine (Some lit_0_01) (at_step 0%nat s) = Raise e ->
     script engine frames initial_state = (Raise e, at_step 0%nat s)) /\
  exists k : nat,
    calls_of "BeginScene" (trace (snd out)) =
      (calls_of "BeginScene" (trace st) + k)%nat /\
    calls_of "DoStep" (trace (snd out)) = (calls_of "DoStep" (trace st) + k)%nat /\
    step_sizes (trace (snd out)) = step_sizes (trace st) ++ replicate k dt /\
    apps (snd out) = apps st /\
    match fst out with
    | Ok _ =>
        k = frames /\
        calls_of "EndScene" (trace (snd out)) =
          (calls_of "EndScene" (trace st) + k)%nat
    | Raise e =>
        (1 <= k <= frames)%nat /\
        calls_of "EndScene" (trace (snd out)) =
          (calls_of "EndScene" (trace st) + (k - 1))%nat /\
        last (trace (snd out)) = Some (EngineStep dt) /\
        engine dt (snd out) = Raise e
    end.
Proof.
  cbv zeta.
  split.
  { intros e Hstep. rewrite frame_unfold, Hstep. reflexivity. }
  split.
  { intros k s e Hlt Hk Hstep.
    exact (render_loop_raise_at engine k frames app st s e _ eq_refl Hlt Hk Hstep). }
  split.
  { intros k s e Hlt Hk Hstep. rewrite script_unfold.
    assert (Hdt : apps after_setup !! 0%nat ≫= app_timestep = Some lit_0_01)
      by (vm_compute; reflexivity).
    exact (render_loop_raise_at engine k frames 0%nat after_setup s e _ Hdt Hlt Hk Hstep). }
  pose proof (render_loop_run engine frames app st) as H. cbv zeta in H.
  destruct H as [Hfr H].
  set (dt := apps st !! app ≫= app_timestep) in *.
  assert (Hb : forall n, count_events (is_call "BeginScene")
                 (mjoin (replicate n (frame_events app dt))) = n).
  { intros n. rewrite count_events_frames. cbn. lia. }
  assert (Hd : forall n, count_events (is_call "DoStep")
                 (mjoin (replicate n (frame_events app dt))) = n).
  { intros n. rewrite count_events_frames. cbn. lia. }
  assert (He : forall n, count_events (is_call "EndScene")
                 (mjoin (replicate n (frame_events app dt))) = n).
  { intros n. rewrite count_events_frames. cbn. lia. }
  destruct (fst (render_loop engine frames app st)) as [[]|e].
  - exists frames. unfold calls_of.
    rewrite H, !count_events_app, !step_sizes_app, step_sizes_frames, Hb, Hd, He.
    cbn. rewrite app_nil_r.
    repeat split; try lia. apply Hfr.
  - destruct H as (k & Hk & Htr & Hraise).
    exists (S k). unfold calls_of.
    rewrite Htr, !count_events_app, !step_sizes_app, step_sizes_frames, Hb, Hd, He.
    cbn [failed_frame_events count_events step_sizes is_call String.eqb
         Ascii.eqb Bool.eqb].
    repeat split; try lia.
    + rewrite replicate_S_end. reflexivity.
    + apply Hfr.
    + rewrite !app_assoc. unfold failed_frame_events.
      change [Called "run" []; Called "BeginScene" []; Called "DrawAll" [];
              Called "drawGrid" []; Called "DoStep" [ARef app]; EngineStep dt]
        with ([Called "run" []; Called "BeginScene" []; Called "DrawAll" [];
               Called "drawGrid" []; Called "DoStep" [ARef app]]
              ++ [EngineStep dt]).
      rewrite app_assoc. apply last_snoc.
    + exact Hraise.
Qed.

Lemma render_loop_no_retry_witness :
  let engine := engine_failing_in_frame 3 in
  let s := snd (render_loop engine 2 0%nat after_setup) in
  (2 < 5)%nat /\
  render_loop engine 2 0%nat after_setup = (Ok tt, s) /\
  engine (Some lit_0_01) (at_step 0%nat s) = Raise EngineError /\
  render_loop engine 5 0%nat after_setup = (Raise EngineError, at_step 0%nat s) /\
  script engine 5 initial_state = (Raise EngineError, at_step 0%nat s).
Proof.
  cbv zeta.
  pose proof (render_loop_no_retry (engine_failing_in_frame 3) 5 0%nat after_setup)
    as H.
  cbv zeta in H. destruct H as (_ & Hloop & Hscript & _).
  split; [lia|].
  split; [vm_compute; reflexivity|].
  split; [vm_compute; reflexivity|].
  split.
  - apply (Hloop 2%nat _ EngineError);
      [lia | vm_compute; reflexivity | vm_compute; reflexivity].
  - apply (Hscript 2%nat _ EngineError);
      [lia | vm_compute; reflexivity | vm_compute; reflexivity].
Defined.

(** C8, as stated, fails.  With an engine that raises exactly at the step size
    0.01, the script's first step raises and the run ends with that exception
    after a single request, for the full step 0.01: no retry is made, although
    a request at the reduced step 0.005 would have gone through. *)
Lemma no_retry_after_failed_step :
  let out := script engine_failing_at_0_01 3 initial_state in
  fst out = Raise EngineError /\
  step_sizes (trace (snd out)) = [Some lit_0_01] /\
  calls_of "DoStep" (trace (snd out)) = 1%nat /\
  is_ok (engine_failing_at_0_01 (Some 0.005%float) (snd out)) = true /\
  ~ retried_at_reduced_step (trace (snd out)).
Proof.
  cbv zeta.
  assert (Hs : step_sizes (trace (snd (script engine_failing_at_0_01 3 initial_state)))
               = [Some lit_0_01]) by (vm_compute; reflexivity).
  split; [vm_compute; reflexivity|].
  split; [exact Hs|].
  split; [vm_compute; reflexivity|].
  split; [vm_compute; reflexivity|].
  intros (earlier & dt1 & dt2 & Heq & _). rewrite Hs in Heq.
  apply (f_equal length) in Heq. rewrite length_app in Heq. cbn in Heq. lia.
Qed.

(** C9, as the script has it.  The setup checks nothing: the configuration is
    used as it is.  With the cable length and the node count as inputs, every
    length (zero too) with [N >= 2] is accepted and the whole cable is built;
    [N = 1] stops in the node loop on Python's ZeroDivisionError, and [N <= 0]
    stops at [beam_nodes[0]] on IndexError; in both cases the system, the mesh
    and the material exist already, and for [N <= 0] so do the truss body and
    the unattached constraint. *)
Theorem setup_does_not_validate len N :
  let out := setup_with len N initial_state in
  (2 <= N ->
     is_ok (fst out) = true /\
     length (nodes (snd out)) = Z.to_nat N /\
     length (elements (snd out)) = Z.to_nat (N - 1) /\
     links (snd out) = [mkLink (Some 0%nat) (Some 0%nat)]) /\
  (N = 1 ->
     fst out = Raise ZeroDivisionError /\
     length (systems (snd out)) = 1%nat /\
     length (meshes (snd out)) = 1%nat /\
     length (sections (snd out)) = 1%nat /\
     nodes (snd out) = []) /\
  (N <= 0 ->
     fst out = Raise IndexError /\
     length (systems (snd out)) = 1%nat /\
     length (meshes (snd out)) = 1%nat /\
     length (sections (snd out)) = 1%nat /\
     nodes (snd out) = [] /\
     elements (snd out) = [] /\
     bodies (snd out) = [mkBody (Some true)] /\
     links (snd out) = [mkLink None None]).
Proof.
  cbv zeta. split_and!.
  - intros HN.
    destruct (setup_with_run len N HN)
      as (app & st & Hrun & Hno & _ & Hel & _ & _ & _ & Hli & _).
    rewrite Hrun. cbn [fst snd is_ok].
    rewrite Hno, Hel, !length_fmap, length_seqZ, length_seq.
    split_and!; [reflexivity | reflexivity | reflexivity | exact Hli].
  - intros ->. vm_compute. split_and!; reflexivity.
  - intros HN. destruct N as [|p|p]; [|lia|];
      vm_compute; split_and!; reflexivity.
Qed.

Lemma setup_does_not_validate_witness :
  (2 <= 16 /\ 1 = 1 /\ 0 <= 0) /\
  (is_ok (fst (setup_with 0%float 16 initial_state)) = true /\
   length (nodes (snd (setup_with 0%float 16 initial_state))) = 16%nat) /\
  fst (setup_with lit_1_2 1 initial_state) = Raise ZeroDivisionError /\
  fst (setup_with lit_1_2 0 initial_state) = Raise IndexError.
Proof.
  split; [lia|]. split_and!.
  - apply (setup_does_not_validate 0%float 16). lia.
  - apply (setup_does_not_validate 0%float 16). lia.
  - apply (setup_does_not_validate lit_1_2 1). reflexivity.
  - apply (setup_does_not_validate lit_1_2 0). lia.
Defined.

(** C9, as stated, fails.  A cable of length zero is not rejected: the setup
    goes through and builds all 16 nodes (every one at x = 0), the 15 elements
    and the constraint.  A node count of zero is not rejected by a validation
    either: the script stops on IndexError at [beam_nodes[0]], when the truss
    body and the constraint object have already been created. *)
Lemma invalid_configurations_not_rejected :
  (let out := setup_with 0%float 16 initial_state in
   fst out = Ok 0%nat /\
   length (nodes (snd out)) = 16%nat /\
   Forall (fun n => vx (node_pos n) = 0%float) (nodes (snd out)) /\
   length (elements (snd out)) = 15%nat /\
   links (snd out) = [mkLink (Some 0%nat) (Some 0%nat)]) /\
  (let out := setup_with lit_1_2 0 initial_state in
   fst out = Raise IndexError /\
   bodies (snd out) = [mkBody (Some true)] /\
   links (snd out) = [mkLink None None]).
Proof.
  cbv zeta. split.
  - split_and!; try (vm_compute; reflexivity).
    vm_compute. repeat constructor.
  - split_and!; vm_compute; reflexivity.
Qed.

(** C10.  Whenever [beam_nodes] has [N_nodes] entries, both indices the element
    loop uses are in bounds at every [ie] of [range(N_nodes - 1)], and the loop
    runs to its end without raising. *)
Theorem element_loop_indices_in_bounds mesh mat st N bn :
  py_N_nodes st = Some N ->
  py_beam_nodes st = Some bn ->
  Z.of_nat (length bn) = N ->
  (forall ie, ie ∈ py_range (N - 1) ->
     is_ok (py_getitem bn ie) = true /\ is_ok (py_getitem bn (ie + 1)) = true) /\
  fst (element_loop mesh mat st) = Ok tt.
Proof.
  intros HN Hbn Hlen. split.
  - intros ie Hie. apply elem_of_seqZ in Hie.
    destruct (lookup_lt_is_Some_2 bn (Z.to_nat ie)) as [a Ha]; [lia|].
    destruct (lookup_lt_is_Some_2 bn (S (Z.to_nat ie))) as [b Hb]; [lia|].
    apply py_getitem_lookup in Ha, Hb.
    rewrite Z2Nat.id in Ha by lia.
    replace (Z.of_nat (S (Z.to_nat ie))) with (ie + 1) in Hb by lia.
    rewrite Ha, Hb. split; reflexivity.
  - destruct (element_loop_run mesh mat st N bn HN Hbn) as (st' & Hrun & _);
      [lia|].
    rewrite Hrun. reflexivity.
Qed.

Lemma element_loop_indices_in_bounds_witness :
  (py_N_nodes after_setup = Some 16 /\
   py_beam_nodes after_setup = Some (seq 0 16) /\
   Z.of_nat (length (seq 0 16)) = 16) /\
  (forall ie, ie ∈ py_range (16 - 1) ->
     is_ok (py_getitem (seq 0 16) ie) = true /\
     is_ok (py_getitem (seq 0 16) (ie + 1)) = true) /\
  fst (element_loop 0%nat 0%nat after_setup) = Ok tt.
Proof.
  split; [split_and!; reflexivity|].
  apply (element_loop_indices_in_bounds 0%nat 0%nat after_setup 16 (seq 0 16));
    reflexivity.
Defined.

(** * Further properties of the script *)

(** ** The two ends of the cable *)

(** The quotient [i / (N_nodes - 1)] is exact at both ends of the node loop. *)
Lemma rounded_quotient_first (b : Z) : 0 < b -> rounded_quotient 0 b = 0%float.
Proof.
  intros Hb. unfold rounded_quotient.
  destruct (Z.ltb_spec b 0) as [?|_]; [lia|]. reflexivity.
Qed.

Lemma rounded_quotient_last (b : Z) : 0 < b -> rounded_quotient b b = 1%float.
Proof.
  intros Hb. unfold rounded_quotient.
  destruct (Z.ltb_spec b 0) as [?|_]; [lia|]. cbn [xorb].
  rewrite Z.abs_eq by lia.
  destruct (Z.eqb_spec b 0) as [?|_]; [lia|].
  replace (Z.log2 b + 56 - Z.log2 b) with 56 by lia.
  change (Z.max 0 56) with 56.
  rewrite (Z.mul_comm b), Z.div_mul, Z.mod_mul by lia.
  vm_compute. reflexivity.
Qed.

(** X1.  The node loop, for every cable length and every node count from 2 on:
    [N] nodes are created, in order, all on the line y = 0.5, z = 0 with the
    tangent (1, 0, 0); node [i] has the abscissa [len * (i / (N - 1))]; the
    quotient is exactly 0 at the first node and exactly 1 at the last, so the
    cable runs from [len * 0.0] to [len * 1.0]; the mesh holds the same nodes
    in the same order as [beam_nodes]. *)
Theorem node_loop_spans_the_cable len N :
  2 <= N ->
  exists app st,
    setup_with len N initial_state = (Ok app, st) /\
    length (nodes st) = Z.to_nat N /\
    (forall i : nat, (i < Z.to_nat N)%nat ->
       nodes st !! i =
       Some (mkNode (mkVector (len * rounded_quotient (Z.of_nat i) (N - 1))%float
                      lit_0_5 float_zero)
               (mkVector 1%float float_zero float_zero))) /\
    nodes st !! 0%nat =
      Some (mkNode (mkVector (len * 0)%float lit_0_5 float_zero) node_direction) /\
    nodes st !! (Z.to_nat N - 1)%nat =
      Some (mkNode (mkVector (len * 1)%float lit_0_5 float_zero) node_direction) /\
    (exists bn, py_beam_nodes st = Some bn /\
                meshes st !! 0%nat ≫= (fun m => Some (mesh_nodes m)) = Some bn /\
                length bn = Z.to_nat N).
Proof.
  intros HN.
  destruct (setup_with_run len N HN)
    as (app & st & Hrun & Hno & Hbn & _ & Hme & _).
  assert (Hi : forall i : nat, (i < Z.to_nat N)%nat ->
            nodes st !! i = Some (new_node len N (Z.of_nat i))).
  { intros i Hi. rewrite Hno, list_lookup_fmap, lookup_seqZ_lt by lia.
    reflexivity. }
  exists app, st. split_and!.
  - exact Hrun.
  - rewrite Hno, length_fmap, length_seqZ. reflexivity.
  - intros i Hlt. rewrite (Hi i Hlt). reflexivity.
  - rewrite (Hi 0%nat) by lia. unfold new_node, node_position.
    change (Z.of_nat 0) with 0. rewrite rounded_quotient_first by lia.
    reflexivity.
  - rewrite (Hi (Z.to_nat N - 1)%nat) by lia. unfold new_node, node_position.
    replace (Z.of_nat (Z.to_nat N - 1)) with (N - 1) by lia.
    rewrite rounded_quotient_last by lia. reflexivity.
  - exists (seq 0 (Z.to_nat N)). split_and!.
    + exact Hbn.
    + rewrite Hme. reflexivity.
    + apply length_seq.
Qed.

Lemma node_loop_spans_the_cable_witness :
  2 <= 5 /\
  exists app st,
    setup_with 3%float 5 initial_state = (Ok app, st) /\
    length (nodes st) = Z.to_nat 5 /\
    (forall i : nat, (i < Z.to_nat 5)%nat ->
       nodes st !! i =
       Some (mkNode (mkVector (3 * rounded_quotient (Z.of_nat i) (5 - 1))%float
                      lit_0_5 float_zero)
               (mkVector 1%float float_zero float_zero))) /\
    nodes st !! 0%nat =
      Some (mkNode (mkVector (3 * 0)%float lit_0_5 float_zero) node_direction) /\
    nodes st !! (Z.to_nat 5 - 1)%nat =
      Some (mkNode (mkVector (3 * 1)%float lit_0_5 float_zero) node_direction) /\
    (exists bn, py_beam_nodes st = Some bn /\
                meshes st !! 0%nat ≫= (fun m => Some (mesh_nodes m)) = Some bn /\
                length bn = Z.to_nat 5).
Proof.
  split; [lia | apply (node_loop_spans_the_cable 3%float 5); lia].
Defined.

(** ** The anchor *)

(** X2.  For every cable length and every node count from 2 on, the setup leaves
    exactly one body, the truss, which is fixed, and exactly one constraint;
    the constraint ties [beam_nodes[0]], the node created first (the one at
    [len * 0.0]), to that truss, and no other node is constrained. *)
Theorem first_node_locked_to_fixed_truss len N :
  2 <= N ->
  exists app st bn node0 truss,
    setup_with len N initial_state = (Ok app, st) /\
    py_beam_nodes st = Some bn /\
    py_getitem bn 0 = Ok node0 /\
    links st = [mkLink (Some node0) (Some truss)] /\
    bodies st = [mkBody (Some true)] /\
    bodies st !! truss = Some (mkBody (Some true)) /\
    nodes st !! node0 =
      Some (mkNode (mkVector (len * 0)%float lit_0_5 float_zero) node_direction).
Proof.
  intros HN.
  destruct (setup_with_run len N HN)
    as (app & st & Hrun & Hno & Hbn & _ & _ & _ & Hbo & Hli & _).
  exists app, st, (seq 0 (Z.to_nat N)), 0%nat, 0%nat. split_and!.
  - exact Hrun.
  - exact Hbn.
  - apply (py_getitem_lookup _ 0%nat). apply lookup_seq_lt. lia.
  - exact Hli.
  - exact Hbo.
  - rewrite Hbo. reflexivity.
  - rewrite Hno, list_lookup_fmap, lookup_seqZ_lt by lia. cbn.
    unfold new_node, node_position. rewrite rounded_quotient_first by lia.
    reflexivity.
Qed.

Lemma first_node_locked_to_fixed_truss_witness :
  2 <= 16 /\
  exists app st bn node0 truss,
    setup_with lit_1_2 16 initial_state = (Ok app, st) /\
    py_beam_nodes st = Some bn /\
    py_getitem bn 0 = Ok node0 /\
    links st = [mkLink (Some node0) (Some truss)] /\
    bodies st = [mkBody (Some true)] /\
    bodies st !! truss = Some (mkBody (Some true)) /\
    nodes st !! node0 =
      Some (mkNode (mkVector (lit_1_2 * 0)%float lit_0_5 float_zero) node_direction).
Proof.
  split; [lia | apply (first_node_locked_to_fixed_truss lit_1_2 16); lia].
Defined.

(** ** The material, for any number of elements *)

(** X3.  For every cable length and every node count from 2 on there is one beam
    section, with the three values the script sets, and each of the [N - 1]
    elements refers to it: a later change of its diameter is the diameter of
    every element. *)
Theorem every_element_shares_the_section len N :
  2 <= N ->
  exists app st,
    setup_with len N initial_state = (Ok app, st) /\
    sections st = [mkSection (Some lit_0_01) (Some lit_0_01e9) (Some lit_0_01)] /\
    length (elements st) = Z.to_nat (N - 1) /\
    Forall (fun e => el_section e = Some 0%nat) (elements st) /\
    Forall (fun e => element_diameter st e = Some lit_0_01) (elements st) /\
    forall d : float,
      Forall (fun e => element_diameter (snd (SetDiameter 0%nat d st)) e = Some d)
        (elements st).
Proof.
  intros HN.
  destruct (setup_with_run len N HN)
    as (app & st & Hrun & _ & _ & Hel & _ & Hse & _).
  assert (Hall : Forall (fun e => el_section e = Some 0%nat) (elements st)).
  { rewrite Hel. apply Forall_fmap, Forall_forall. intros j _. reflexivity. }
  exists app, st. split_and!.
  - exact Hrun.
  - exact Hse.
  - rewrite Hel, length_fmap, length_seq. reflexivity.
  - exact Hall.
  - eapply Forall_impl; [exact Hall|].
    intros e He. unfold element_diameter. rewrite He, Hse. reflexivity.
  - intros d. eapply Forall_impl; [exact Hall|].
    intros e He. unfold element_diameter. rewrite He.
    unfold SetDiameter, bind, modify, called. cbn. rewrite Hse. reflexivity.
Qed.

Lemma every_element_shares_the_section_witness :
  2 <= 3 /\
  exists app st,
    setup_with lit_1_2 3 initial_state = (Ok app, st) /\
    sections st = [mkSection (Some lit_0_01) (Some lit_0_01e9) (Some lit_0_01)] /\
    length (elements st) = Z.to_nat (3 - 1) /\
    Forall (fun e => el_section e = Some 0%nat) (elements st) /\
    Forall (fun e => element_diameter st e = Some lit_0_01) (elements st) /\
    forall d : float,
      Forall (fun e => element_diameter (snd (SetDiameter 0%nat d st)) e = Some d)
        (elements st).
Proof.
  split; [lia | apply (every_element_shares_the_section lit_1_2 3); lia].
Defined.

(** ** The element loop on a list that is too short, or for too few nodes *)

Lemma bind_raise {A B} (m : M A) (k : A -> M B) st e st' :
  m st = (Raise e, st') -> bind m k st = (Raise e, st').
Proof. unfold bind. intros ->. reflexivity. Qed.

Lemma for_each_app_ok {A} (body : A -> M unit) (l1 l2 : list A) st st1 :
  for_each l1 body st = (Ok tt, st1) ->
  for_each (l1 ++ l2) body st = for_each l2 body st1.
Proof.
  revert st. induction l1 as [|x l1 IH]; intros st H.
  - cbn in H. injection H as <-. reflexivity.
  - cbn [for_each app] in *. unfold bind in *.
    destruct (body x st) as [[[]|e] s]; [|discriminate].
    apply IH. exact H.
Qed.

Lemma py_getitem_beyond {A} (l : list A) (i : Z) :
  Z.of_nat (length l) <= i -> py_getitem l i = Raise IndexError.
Proof.
  intros Hi. unfold py_getitem.
  destruct (Z.ltb_spec i 0) as [?|_]; [lia|].
  destruct (Z.ltb_spec i (Z.of_nat (length l))) as [?|_]; [lia|].
  rewrite andb_false_r. reflexivity.
Qed.

Lemma element_body_raise_first mesh mat ie st bn e :
  py_beam_nodes st = Some bn -> py_getitem bn ie = Raise e ->
  exists st',
    element_body mesh mat ie st = (Raise e, st') /\
    elements st' = elements st ++ [mkElement None None] /\
    meshes st' = meshes st.
Proof.
  destruct st. intros Hbn Ha. cbn in Hbn. subst.
  run_statements. rewrite Ha.
  eexists. split; [reflexivity|]. cbn. split; reflexivity.
Qed.

Lemma element_body_raise_second mesh mat ie st bn a e :
  py_beam_nodes st = Some bn ->
  py_getitem bn ie = Ok a -> py_getitem bn (ie + 1) = Raise e ->
  exists st',
    element_body mesh mat ie st = (Raise e, st') /\
    elements st' = elements st ++ [mkElement None None] /\
    meshes st' = meshes st.
Proof.
  destruct st. intros Hbn Ha Hb. cbn in Hbn. subst.
  run_statements. rewrite Ha, Hb.
  eexists. split; [reflexivity|]. cbn. split; reflexivity.
Qed.

(** X4.  The element loop outside the case the script sets up.  For [N_nodes <= 1]
    the range is empty: the loop does nothing, whatever [beam_nodes] holds,
    and does not raise.  For [N_nodes >= 2] and a [beam_nodes] with fewer than
    [N_nodes] entries the loop raises IndexError; by then it has added one
    element to the mesh for each pair of consecutive entries, and has created
    one more element object, which has no nodes and no section and is in no
    mesh. *)
Theorem element_loop_on_short_list mesh mat st N bn :
  py_N_nodes st = Some N ->
  py_beam_nodes st = Some bn ->
  (N <= 1 -> element_loop mesh mat st = (Ok tt, st)) /\
  (2 <= N -> Z.of_nat (length bn) < N ->
   let out := element_loop mesh mat st in
   fst out = Raise IndexError /\
   length (elements (snd out)) = (length (elements st) + Nat.max 1 (length bn))%nat /\
   last (elements (snd out)) = Some (mkElement None None) /\
   meshes (snd out) =
     alter (with_elements (seq (length (elements st)) (length bn - 1)))
       mesh (meshes st)).
Proof.
  intros HN Hbn. split.
  - intros Hle. unfold element_loop.
    rewrite (bind_ok _ _ _ _ _ (read_var_some _ _ _ HN)).
    unfold py_range. rewrite seqZ_nil by lia. reflexivity.
  - intros H2 Hshort. cbv zeta.
    set (L := length bn) in *.
    set (n0 := Z.max 0 (Z.of_nat L - 1)).
    destruct (element_iterations_run mesh mat st n0 bn Hbn)
      as (st1 & Hrun1 & _ & _ & Hbn1 & Hel1 & Hme1); [subst n0; lia|].
    assert (Hbody : exists st2,
              element_body mesh mat n0 st1 = (Raise IndexError, st2) /\
              elements st2 = elements st1 ++ [mkElement None None] /\
              meshes st2 = meshes st1).
    { destruct (Nat.eq_dec L 0%nat) as [H0|H0].
      - apply (element_body_raise_first mesh mat n0 st1 bn IndexError Hbn1).
        apply py_getitem_beyond. fold L. subst n0. lia.
      - destruct (lookup_lt_is_Some_2 bn (L - 1)) as [a Ha]; [fold L; lia|].
        apply py_getitem_lookup in Ha.
        replace (Z.of_nat (L - 1)) with n0 in Ha by (subst n0; lia).
        apply (element_body_raise_second mesh mat n0 st1 bn a IndexError Hbn1 Ha).
        apply py_getitem_beyond. fold L. subst n0. lia. }
    destruct Hbody as (st2 & Hbody & Hel2 & Hme2).
    assert (Hloop : element_loop mesh mat st = (Raise IndexError, st2)).
    { unfold element_loop.
      rewrite (bind_ok _ _ _ _ _ (read_var_some _ _ _ HN)).
      unfold py_range.
      replace (N - 1) with (n0 + (N - 1 - n0)) by lia.
      rewrite seqZ_app by (subst n0; lia).
      rewrite (for_each_app_ok _ _ _ _ _ Hrun1).
      rewrite seqZ_cons by (subst n0; lia).
      cbn [for_each]. change (0 + n0) with n0.
      apply bind_raise. exact Hbody. }
    rewrite Hloop. cbn [fst snd]. split_and!.
    + reflexivity.
    + rewrite Hel2, Hel1, !length_app, length_fmap, length_seq. cbn [length].
      subst n0. lia.
    + rewrite Hel2. apply last_snoc.
    + rewrite Hme2, Hme1.
      replace (Z.to_nat n0) with (L - 1)%nat by (subst n0; lia). reflexivity.
Qed.

Lemma element_loop_on_short_list_witness :
  (py_N_nodes (set_py_N_nodes 20 after_setup) = Some 20 /\
   py_beam_nodes (set_py_N_nodes 20 after_setup) = Some (seq 0 16) /\
   2 <= 20 /\ Z.of_nat (length (seq 0 16)) < 20) /\
  let out := element_loop 0%nat 0%nat (set_py_N_nodes 20 after_setup) in
  fst out = Raise IndexError /\
  length (elements (snd out)) =
    (length (elements (set_py_N_nodes 20 after_setup))
     + Nat.max 1 (length (seq 0 16)))%nat /\
  last (elements (snd out)) = Some (mkElement None None) /\
  meshes (snd out) =
    alter (with_elements
             (seq (length (elements (set_py_N_nodes 20 after_setup)))
                (length (seq 0 16) - 1)))
      0%nat (meshes (set_py_N_nodes 20 after_setup)).
Proof.
  split; [split_and!; [reflexivity | reflexivity | lia | cbn; lia]|].
  apply (element_loop_on_short_list 0%nat 0%nat (set_py_N_nodes 20 after_setup)
           20 (seq 0 16)); [reflexivity | reflexivity | lia | cbn; lia].
Defined.

(** ** The render loop, frame by frame *)

(** X5.  The calls of the render loop, in order, for any engine and from any
    state.  A run of [frames] frames that returns is [frames] times the
    sequence [run()], [BeginScene], [DrawAll], [drawGrid], [DoStep],
    [EndScene], with the step asked of the engine between [DoStep] and
    [EndScene], followed by the one [run()] that ends the loop: the scene is
    drawn before the step of its frame, and the device is asked once more than
    there are frames.  A step that goes through is followed by [EndScene] and
    the next [run()].  A step that raises after [k] complete frames ends the
    run with that exception: the calls are those of the [k] frames and of the
    frame begun, up to its step request, and nothing follows ([EndScene] has
    been called [k] times). *)
Theorem render_loop_frame_order engine frames app st :
  let dt := apps st !! app ≫= app_timestep in
  let out := render_loop engine frames app st in
  (forall k s e, (k < frames)%nat ->
     render_loop engine k app st = (Ok tt, s) ->
     engine dt (at_step app s) = Raise e ->
     fst out = Raise e /\
     trace (snd out) =
       trace st ++ mjoin (replicate k (frame_events app dt))
                ++ failed_frame_events app dt /\
     calls_of "run" (trace (snd out)) = (calls_of "run" (trace st) + k + 1)%nat /\
     calls_of "DrawAll" (trace (snd out)) = (calls_of "DrawAll" (trace st) + k + 1)%nat /\
     calls_of "EndScene" (trace (snd out)) = (calls_of "EndScene" (trace st) + k)%nat) /\
  (forall k s new_node,
     render_loop engine k app st = (Ok tt, s) ->
     engine dt (at_step app s) = Ok new_node ->
     render_loop engine (S k) app st =
       (Ok tt, add_event (Called "run" [])
                 (add_event (Called "EndScene" [])
                    (upd_nodes (imap (fun i _ => new_node i)) (at_step app s))))) /\
  match fst out with
  | Ok _ =>
      trace (snd out) =
        trace st ++ mjoin (replicate frames (frame_events app dt))
                 ++ [Called "run" []] /\
      calls_of "run" (trace (snd out)) = (calls_of "run" (trace st) + frames + 1)%nat /\
      calls_of "DrawAll" (trace (snd out)) = (calls_of "DrawAll" (trace st) + frames)%nat
  | Raise _ =>
      exists k : nat,
        (k < frames)%nat /\
        trace (snd out) =
          trace st ++ mjoin (replicate k (frame_events app dt))
                   ++ failed_frame_events app dt /\
        calls_of "run" (trace (snd out)) = (calls_of "run" (trace st) + k + 1)%nat /\
        calls_of "DrawAll" (trace (snd out)) = (calls_of "DrawAll" (trace st) + k + 1)%nat
  end.
Proof.
  cbv zeta.
  pose proof (render_loop_run engine frames app st) as H. cbv zeta in H.
  destruct H as [_ H].
  set (dt := apps st !! app ≫= app_timestep) in *.
  assert (Hr : forall n, count_events (is_call "run")
                 (mjoin (replicate n (frame_events app dt))) = n).
  { intros n. rewrite count_events_frames. cbn. lia. }
  assert (Hd : forall n, count_events (is_call "DrawAll")
                 (mjoin (replicate n (frame_events app dt))) = n).
  { intros n. rewrite count_events_frames. cbn. lia. }
  assert (He : forall n, count_events (is_call "EndScene")
                 (mjoin (replicate n (frame_events app dt))) = n).
  { intros n. rewrite count_events_frames. cbn. lia. }
  split.
  { intros k s e Hlt Hk Hstep.
    rewrite (render_loop_raise_at engine k frames app st s e dt eq_refl Hlt Hk Hstep).
    destruct (render_loop_ok_state engine k app st s Hk) as [Hap Htr].
    fold dt in Htr. cbn [fst snd].
    assert (Htrace : trace (at_step app s) =
                     trace st ++ mjoin (replicate k (frame_events app dt))
                              ++ failed_frame_events app dt).
    { unfold at_step. rewrite Hap. fold dt. simpl. rewrite Htr.
      rewrite <- !app_assoc. reflexivity. }
    split; [reflexivity|]. split; [exact Htrace|].
    unfold calls_of. rewrite Htrace, !count_events_app, Hr, Hd, He. cbn. lia. }
  split.
  { intros k s new_node Hk Hstep.
    exact (render_loop_ok_step engine k app st s new_node Hk Hstep). }
  destruct (fst (render_loop engine frames app st)) as [[]|e].
  - split; [exact H|]. unfold calls_of.
    rewrite H, !count_events_app, Hr, Hd. cbn. lia.
  - destruct H as (k & Hk & Htr & _). exists k.
    split; [exact Hk|]. split; [exact Htr|]. unfold calls_of.
    rewrite Htr, !count_events_app, Hr, Hd. cbn. lia.
Qed.

Lemma render_loop_frame_order_witness :
  let engine := engine_failing_in_frame 2 in
  let s := snd (render_loop engine 1 0%nat after_setup) in
  let out := render_loop engine 4 0%nat after_setup in
  (1 < 4)%nat /\
  render_loop engine 1 0%nat after_setup = (Ok tt, s) /\
  engine (Some lit_0_01) (at_step 0%nat s) = Raise EngineError /\
  fst out = Raise EngineError /\
  trace (snd out) =
    trace after_setup ++ frame_events 0%nat (Some lit_0_01)
                      ++ failed_frame_events 0%nat (Some lit_0_01) /\
  calls_of "EndScene" (trace (snd out)) = 1%nat.
Proof.
  cbv zeta.
  pose proof (render_loop_frame_order (engine_failing_in_frame 2) 4 0%nat after_setup)
    as H.
  cbv zeta in H. destruct H as (Hraise & _).
  destruct (Hraise 1%nat (snd (render_loop (engine_failing_in_frame 2) 1 0%nat after_setup))
              EngineError)
    as (Hfst & Htr & _ & _ & Hend);
    [lia | vm_compute; reflexivity | vm_compute; reflexivity |].
  split; [lia|].
  split; [vm_compute; reflexivity|].
  split; [vm_compute; reflexivity|].
  split; [exact Hfst|].
  split.
  - rewrite Htr. vm_compute. reflexivity.
  - rewrite Hend. vm_compute. reflexivity.
Defined.

(** ** What the render loop leaves of the cable *)

(** X6.  For every engine, every number of frames, every cable length and every
    node count from 2 on: after the whole script (setup and render loop,
    ended by the window or by an exception of a step) the cable is as the
    setup built it.  There are still [N] nodes; the [N - 1] elements still
    connect consecutive nodes and refer to the one section; the mesh, the
    section, the truss and the constraint on node 0 are unchanged. *)
Theorem render_loop_keeps_the_cable engine frames len N :
  2 <= N ->
  let st := snd (script_with engine len N frames initial_state) in
  length (nodes st) = Z.to_nat N /\
  length (elements st) = Z.to_nat (N - 1) /\
  (forall i : nat, (i < Z.to_nat (N - 1))%nat ->
     elements st !! i = Some (mkElement (Some (i, S i)) (Some 0%nat))) /\
  meshes st = [mkMesh (seq 0 (Z.to_nat N)) (seq 0 (Z.to_nat (N - 1)))] /\
  sections st = [mkSection (Some lit_0_01) (Some lit_0_01e9) (Some lit_0_01)] /\
  bodies st = [mkBody (Some true)] /\
  links st = [mkLink (Some 0%nat) (Some 0%nat)].
Proof.
  intros HN. cbv zeta.
  destruct (setup_with_run len N HN)
    as (app & st0 & Hrun & Hno & _ & Hel & Hme & Hse & Hbo & Hli & _).
  unfold script_with. rewrite (bind_ok _ _ _ _ _ Hrun).
  pose proof (render_loop_run engine frames app st0) as H. cbv zeta in H.
  destruct H as [[] _].
  split_and!.
  - rewrite frozen_node_count0, Hno, length_fmap, length_seqZ. reflexivity.
  - rewrite frozen_elements0, Hel, length_fmap, length_seq. reflexivity.
  - intros i Hi.
    rewrite frozen_elements0, Hel, list_lookup_fmap, lookup_seq_lt by lia.
    cbn. unfold element_between. rewrite !seq_nth by lia. reflexivity.
  - rewrite frozen_meshes0. exact Hme.
  - rewrite frozen_sections0. exact Hse.
  - rewrite frozen_bodies0. exact Hbo.
  - rewrite frozen_links0. exact Hli.
Qed.

Lemma render_loop_keeps_the_cable_witness :
  2 <= 4 /\
  let st := snd (script_with engine_at_rest lit_1_2 4 3 initial_state) in
  length (nodes st) = Z.to_nat 4 /\
  length (elements st) = Z.to_nat (4 - 1) /\
  (forall i : nat, (i < Z.to_nat (4 - 1))%nat ->
     elements st !! i = Some (mkElement (Some (i, S i)) (Some 0%nat))) /\
  meshes st = [mkMesh (seq 0 (Z.to_nat 4)) (seq 0 (Z.to_nat (4 - 1)))] /\
  sections st = [mkSection (Some lit_0_01) (Some lit_0_01e9) (Some lit_0_01)] /\
  bodies st = [mkBody (Some true)] /\
  links st = [mkLink (Some 0%nat) (Some 0%nat)].
Proof.
  split; [lia | apply (render_loop_keeps_the_cable engine_at_rest 3 lit_1_2 4); lia].
Defined.

(** ** A setup that fails never reaches the render loop *)

(** X7.  For every engine, every number of frames and every cable length: with a
    node count of 1 or less the script ends with the exception of its setup
    (ZeroDivisionError for 1, IndexError below); the device is never asked to
    run, no scene is begun and no step is asked of the engine. *)
Theorem failed_setup_never_steps engine frames len N :
  N <= 1 ->
  let out := script_with engine len N frames initial_state in
  fst out = Raise (if N =? 1 then ZeroDivisionError else IndexError) /\
  calls_of "run" (trace (snd out)) = 0%nat /\
  calls_of "BeginScene" (trace (snd out)) = 0%nat /\
  calls_of "DoStep" (trace (snd out)) = 0%nat /\
  step_sizes (trace (snd out)) = [].
Proof.
  intros HN. cbv zeta.
  assert (Hcases : N = 1 \/ N = 0 \/ exists p, N = Z.neg p).
  { destruct N as [|p|p]; [auto | left; lia | right; right; eauto]. }
  assert (Hsetup : exists e st,
            setup_with len N initial_state = (Raise e, st) /\
            e = (if N =? 1 then ZeroDivisionError else IndexError) /\
            calls_of "run" (trace st) = 0%nat /\
            calls_of "BeginScene" (trace st) = 0%nat /\
            calls_of "DoStep" (trace st) = 0%nat /\
            step_sizes (trace st) = []).
  { destruct Hcases as [-> | [-> | [p ->]]].
    - exists ZeroDivisionError, (snd (setup_with len 1 initial_state)).
      split_and!; vm_compute; reflexivity.
    - exists IndexError, (snd (setup_with len 0 initial_state)).
      split_and!; vm_compute; reflexivity.
    - exists IndexError, (snd (setup_with len (Z.neg p) initial_state)).
      split_and!; vm_compute; reflexivity. }
  destruct Hsetup as (e & st & Hrun & -> & H1 & H2 & H3 & H4).
  unfold script_with. rewrite (bind_raise _ _ _ _ _ Hrun). cbn [fst snd].
  split_and!; [reflexivity | assumption..].
Qed.

Lemma failed_setup_never_steps_witness :
  1 <= 1 /\
  let out := script_with engine_at_rest lit_1_2 1 5 initial_state in
  fst out = Raise (if 1 =? 1 then ZeroDivisionError else IndexError) /\
  calls_of "run" (trace (snd out)) = 0%nat /\
  calls_of "BeginScene" (trace (snd out)) = 0%nat /\
  calls_of "DoStep" (trace (snd out)) = 0%nat /\
  step_sizes (trace (snd out)) = [].
Proof.
  split; [lia | apply (failed_setup_never_steps engine_at_rest 5 lit_1_2 1); lia].
Defined.

(** ** The system the application steps *)

Lemma create_nodes_keeps_solver mesh st len N :
  2 <= N ->
  solvers (snd (create_nodes mesh len N st)) = solvers st /\
  apps (snd (create_nodes mesh len N st)) = apps st.
Proof.
  intros HN.
  destruct st. cbv [create_nodes]. run_statements.
  match goal with
  | |- context [node_loop mesh ?s] =>
      destruct (node_loop_run mesh s len N [] HN eq_refl eq_refl eq_refl)
        as (st' & Hrun & [] & _)
  end.
  rewrite Hrun. cbn in *. split; assumption.
Qed.

Lemma add_constraints_registers system st bn node0 :
  py_beam_nodes st = Some bn -> py_getitem bn 0 = Ok node0 ->
  systems (snd (add_constraints system st)) =
    alter (fun s => mkSystem (G_acc s)
                      ((sys_items s ++ [ItemBody (length (bodies st))])
                       ++ [ItemLink (length (links st))])
                      (sys_solver s) (sys_timestepper s))
      system (systems st) /\
  solvers (snd (add_constraints system st)) = solvers st /\
  apps (snd (add_constraints system st)) = apps st.
Proof.
  destruct st. intros Hb H0. cbn in Hb. subst. run_statements. rewrite H0.
  cbn. split_and!; try reflexivity.
  rewrite list_alter_alter_eq. reflexivity.
Qed.

Lemma last_phases_attach system st :
  let out :=
    (visualization ;; configure_solver system ;; prepare_application system) st in
  systems (snd out) =
    alter (fun s => mkSystem (G_acc s) (sys_items s) (Some (length (solvers st)))
                      (Some Type_EULER_IMPLICIT_LINEARIZED))
      system (systems st) /\
  solvers (snd out) =
    solvers st ++ [mkSolver (Some 200) (Some lit_1em10) (Some true)] /\
  apps (snd out) = apps st ++ [mkApp system (Some lit_0_01) (Some true)].
Proof.
  cbv zeta. destruct st. run_statements. cbn. split_and!.
  - rewrite list_alter_alter_eq. reflexivity.
  - rewrite !list_alter_alter_eq, alter_snoc. reflexivity.
  - rewrite !list_alter_alter_eq, alter_snoc. reflexivity.
Qed.

(** X8.  For every cable length and every node count from 2 on, the setup ends with
    one system, one solver and one application, put together as follows: the
    system has the gravity (0, -9.81, 0) and holds, in this order, the mesh,
    the truss and the constraint; the solver attached to it is the one the
    script has configured (200 iterations, tolerance 1e-10, warm start), with
    the linearized implicit Euler timestepper; the application returned is the
    one that wraps this system, with step size 0.01 and real-time mode on. *)
Theorem setup_assembles_one_system len N :
  2 <= N ->
  exists st,
    setup_with len N initial_state = (Ok 0%nat, st) /\
    systems st =
      [mkSystem (Some (mkVector float_zero (- lit_9_81)%float float_zero))
         [ItemMesh 0%nat; ItemBody 0%nat; ItemLink 0%nat] (Some 0%nat)
         (Some Type_EULER_IMPLICIT_LINEARIZED)] /\
    length (meshes st) = 1%nat /\
    bodies st = [mkBody (Some true)] /\
    length (links st) = 1%nat /\
    solvers st = [mkSolver (Some 200) (Some lit_1em10) (Some true)] /\
    apps st = [mkApp 0%nat (Some lit_0_01) (Some true)].
Proof.
  intros HN.
  destruct (create_nodes_run 0%nat before_nodes len N HN)
    as (st1 & H1 & (Hsy1 & _ & Hbo1 & Hli1 & _) & _ & HN1 & _ & Hbn1 & _).
  destruct (create_nodes_keeps_solver 0%nat before_nodes len N HN) as [Hso1 Hap1].
  rewrite H1 in Hso1, Hap1. cbn [snd] in Hso1, Hap1.
  change (nodes before_nodes) with (@nil ChNodeFEAxyzD) in Hbn1.
  change (length (@nil ChNodeFEAxyzD)) with O in Hbn1.
  destruct (element_loop_run 0%nat 0%nat st1 N (seq 0 (Z.to_nat N)) HN1 Hbn1)
    as (st2 & H2 & [] & _ & Hbn2 & _); [apply length_seq|].
  assert (H0 : py_getitem (seq 0 (Z.to_nat N)) 0 = Ok 0%nat).
  { apply (py_getitem_lookup _ 0%nat). apply lookup_seq_lt. lia. }
  destruct (add_constraints_run 0%nat st2 (seq 0 (Z.to_nat N)) 0%nat Hbn2 H0)
    as (st3 & H3 & _ & Hbo3 & Hli3).
  destruct (add_constraints_registers 0%nat st2 (seq 0 (Z.to_nat N)) 0%nat Hbn2 H0)
    as (Hsy3 & Hso3 & Hap3).
  rewrite H3 in Hsy3, Hso3, Hap3. cbn [snd] in Hsy3, Hso3, Hap3.
  destruct (last_phases_run 0%nat st3) as (st4 & H4 & []).
  destruct (last_phases_attach 0%nat st3) as (Hsy4 & Hso4 & Hap4).
  rewrite H4 in Hsy4, Hso4, Hap4. cbn [snd] in Hsy4, Hso4, Hap4.
  assert (Hap : apps st3 = []).
  { rewrite Hap3, untouched_apps0, Hap1. reflexivity. }
  assert (Heq : setup_with len N initial_state = (Ok (length (apps st3)), st4)).
  { unfold setup_with.
    do 4 (erewrite bind_ok by (vm_compute; reflexivity); cbv beta).
    unfold before_nodes in H1. rewrite (bind_ok _ _ _ _ _ H1).
    unfold create_elements. rewrite (bind_ok _ _ _ _ _ H2).
    rewrite (bind_ok _ _ _ _ _ H3). exact H4. }
  exists st4. split_and!.
  - rewrite Heq, Hap. reflexivity.
  - rewrite Hsy4, Hsy3, untouched_systems0, Hsy1.
    rewrite untouched_bodies0, Hbo1, untouched_links0, Hli1.
    rewrite Hso3, untouched_solvers0, Hso1. reflexivity.
  - destruct (setup_with_run len N HN) as (app & st & Hrun & _ & _ & _ & Hme & _).
    rewrite Hrun in Heq. injection Heq as _ <-. rewrite Hme. reflexivity.
  - rewrite same_bodies0, Hbo3, untouched_bodies0, Hbo1. reflexivity.
  - rewrite same_links0, Hli3, untouched_links0, Hli1. reflexivity.
  - rewrite Hso4, Hso3, untouched_solvers0, Hso1. reflexivity.
  - rewrite Hap4, Hap. reflexivity.
Qed.

Lemma setup_assembles_one_system_witness :
  2 <= 2 /\
  exists st,
    setup_with 0.5%float 2 initial_state = (Ok 0%nat, st) /\
    systems st =
      [mkSystem (Some (mkVector float_zero (- lit_9_81)%float float_zero))
         [ItemMesh 0%nat; ItemBody 0%nat; ItemLink 0%nat] (Some 0%nat)
         (Some Type_EULER_IMPLICIT_LINEARIZED)] /\
    length (meshes st) = 1%nat /\
    bodies st = [mkBody (Some true)] /\
    length (links st) = 1%nat /\
    solvers st = [mkSolver (Some 200) (Some lit_1em10) (Some true)] /\
    apps st = [mkApp 0%nat (Some lit_0_01) (Some true)].
Proof.
  split; [lia | apply (setup_assembles_one_system 0.5%float 2); lia].
Defined.
